(** * Form-state building (server side) and the blocks field (client side)

    A shallow embedding of
    - [packages/ui/src/utilities/buildFormState.ts]
      ([getFieldSchemaMap], [getClientConfig], [buildFormStateHandler],
      [buildFormState]);
    - the blocks field component ([minRows], [editingDefaultLocale],
      [memoizedValidate], [addRow], [hasMaxRows], the banners and the rows it
      renders);
    - the cloud plugin ([payloadCloudPlugin]).

    JavaScript objects used as dictionaries are finite maps, exceptions are
    an explicit completion, module-level variables and the object store are
    threaded through a small state-and-exception monad. *)

From Stdlib Require Import ZArith List Bool Lia Ascii.
From stdpp Require Import base option list strings pretty gmap.

Local Open Scope string_scope.

(** ** JavaScript values and control flow *)

Module Js.

(** An [Error] object, as far as the code under study inspects it. *)
Record Error := mkError { name : string; message : string }.

(** [new Error(msg)] *)
Definition newError (msg : string) : Error := mkError "Error" msg.

(** The [TypeError] raised when a property is read from [undefined]. *)
Definition typeError (msg : string) : Error := mkError "TypeError" msg.

(** Result of evaluating a statement or call: a value or a thrown error. *)
Inductive completion (A : Type) : Type :=
| Normal (a : A)
| Throw (e : Error).
Arguments Normal {A} a.
Arguments Throw {A} e.

(** Truthiness of [string | undefined]. *)
Definition truthy (s : option string) : bool :=
  match s with
  | Some s => negb (String.eqb s EmptyString)
  | None => false
  end.

(** [a || b] on [string | undefined]. *)
Definition or_else (a b : option string) : option string :=
  if truthy a then a else b.

(** The one-character string holding a double quote. *)
Definition dquote : string := String (Ascii.ascii_of_nat 34) EmptyString.

(** [arr.join('.')] *)
Definition join (sep : string) (arr : list string) : string :=
  String.concat sep arr.

(** [arr.slice(0, -1)] *)
Definition slice_0_m1 {A} (arr : list A) : list A := removelast arr.

(** Strict equality between a string and a [string | undefined]. *)
Definition str_eq (a : string) (b : option string) : bool :=
  match b with
  | Some b => String.eqb a b
  | None => false
  end.

(** [str.startsWith(searchString)] *)
Definition startsWith (str searchString : string) : bool :=
  String.prefix searchString str.

(** The strings without the character [c]. *)
Fixpoint free_of (c : Ascii.ascii) (str : string) : Prop :=
  match str with
  | EmptyString => True
  | String c' rest => c' <> c /\ free_of c rest
  end.

End Js.

Import Js.

(** ** A state-and-exception monad *)

Section Monad.
Context {W : Type}.

Definition M (A : Type) : Type := W -> completion A * W.

Definition ret {A} (a : A) : M A := fun w => (Normal a, w).

Definition throw {A} (e : Error) : M A := fun w => (Throw e, w).

Definition bind {A B} (m : M A) (k : A -> M B) : M B := fun w =>
  match m w with
  | (Normal a, w') => k a w'
  | (Throw e, w') => (Throw e, w')
  end.

(** [try { m } catch (err) { h err }] *)
Definition try_catch {A} (m : M A) (h : Error -> M A) : M A := fun w =>
  match m w with
  | (Normal a, w') => (Normal a, w')
  | (Throw e, w') => h e w'
  end.

Definition get : M W := fun w => (Normal w, w).
Definition modify (f : W -> W) : M unit := fun w => (Normal tt, f w).

(** Result of a call to a collaborator that does not touch the state. *)
Definition lift {A} (c : completion A) : M A := fun w => (c, w).

(** [if (c) { m }] *)
Definition when (c : bool) (m : M unit) : M unit := if c then m else ret tt.
End Monad.

Notation "'let!' x ':=' m 'in' k" := (bind m (fun x => k))
  (at level 10, x name, m at level 100, k at level 200).
Notation "'let!' ' p ':=' m 'in' k" := (bind m (fun x => match x with p => k end))
  (at level 10, p pattern, m at level 100, k at level 200).
Notation "'do!' m 'in' k" := (bind m (fun _ => k))
  (at level 10, m at level 100, k at level 200).

(** ** Data model of [buildFormState.ts] *)

(** A field config, as far as [buildFormState] looks into it: whether it has
    a [type] key and its value, whether it has a [fields] key and its value
    ([Some None] is a [fields] key holding [undefined]). *)
#[warnings="-register-all"]
Inductive Field : Type :=
  MkField (name : string) (type : option string)
          (fields : option (option (list Field))).

Definition field_type (f : Field) : option string :=
  let 'MkField _ t _ := f in t.

Definition field_fields (f : Field) : option (option (list Field)) :=
  let 'MkField _ _ fs := f in fs.

(** A value of the field schema map: an array of fields, or a single object
    (an entity config or a field). *)
Inductive FieldOrEntityConfig : Type :=
| ConfigArray (fs : list Field)
| ConfigObject (o : Field).

(** [FieldSchemaMap = Map<string, ...>] *)
Abbreviation FieldSchemaMap := (gmap string FieldOrEntityConfig).

(** References to field-state objects. *)
Abbreviation ref := positive.

(** A form state object: property name (data path) to field-state object. *)
Abbreviation FormState := (gmap string ref).

(** Types the module only passes around. *)
Class Domain : Type := {
  ConfigRest : Type;
  I18n : Type;
  Data : Type;
  DocPermissions : Type;
  DocPreferences : Type;
  DocID : Type;
  Operation : Type;
  LockedState : Type;
  ErrorResult : Type;
  UserDoc : Type;
  AccessFn : Type;
  UploadConfig : Type;
  FieldStateRest : Type;
}.

Section Model.
Context `{Domain}.

Record FieldState : Type := {
  requiresRender : bool;
  fs_schemaPath : list string;
  fs_rest : FieldStateRest;
}.

(** The store of field-state objects. *)
Abbreviation Heap := (gmap ref FieldState).

Record SanitizedConfig : Type := {
  admin_user : string;              (* config.admin.user *)
  config_rest : ConfigRest;
}.

Record CollectionConfig : Type := {
  access_admin : option AccessFn;   (* config.access?.admin *)
  upload : option UploadConfig;     (* config.upload *)
}.

Record Payload : Type := {
  config : SanitizedConfig;
  collections : gmap string CollectionConfig;
}.

Record User : Type := { user_collection : option string }.

Record PayloadRequest : Type := {
  user : option User;
  i18n : I18n;
  payload : Payload;
}.

Record BuildFormStateArgs : Type := {
  id : option DocID;
  collectionSlug : option string;
  data : option Data;
  docPermissions : option DocPermissions;
  docPreferences : option DocPreferences;
  formState : option FormState;
  globalSlug : option string;
  operation : option Operation;
  path : option (list string);
  renderFields : option bool;
  req : PayloadRequest;
  returnLockStatus : bool;
  schemaPath : option (list string);
  updateLastEdited : option bool;
}.

Record LogEntry : Type := { log_err : Error; log_msg : string }.

(** Module-level and process-level state. *)
Record World : Type := {
  NODE_ENV : option string;                                   (* process.env.NODE_ENV *)
  cachedFieldMap : option (gmap (option string) FieldSchemaMap);
  heap : Heap;
  logged : list LogEntry;                                     (* req.payload.logger.error *)
}.

Definition set_cachedFieldMap (c : option (gmap (option string) FieldSchemaMap))
    (w : World) : World :=
  {| NODE_ENV := NODE_ENV w; cachedFieldMap := c; heap := heap w; logged := logged w |}.

Definition set_heap (h : Heap) (w : World) : World :=
  {| NODE_ENV := NODE_ENV w; cachedFieldMap := cachedFieldMap w; heap := h;
     logged := logged w |}.

Definition log_error (e : LogEntry) (w : World) : World :=
  {| NODE_ENV := NODE_ENV w; cachedFieldMap := cachedFieldMap w; heap := heap w;
     logged := logged w ++ [e] |}.

(** *** Arguments of the collaborators *)

Record BuildFieldSchemaMapArgs : Type := {
  bm_collectionSlug : option string;
  bm_config : SanitizedConfig;
  bm_globalSlug : option string;
  bm_i18n : I18n;
}.

Record FindArgs : Type := {
  find_collection : string;
  find_depth : Z;
  find_limit : Z;
  find_pagination : bool;
}.

Record FindResult : Type := { docs : list UserDoc }.

Record FieldSchemasToFormStateArgs : Type := {
  fs_id : option DocID;
  fs_collectionSlug : option string;
  fs_data : option Data;
  fs_fields : option (list Field);
  fs_operation : option Operation;
  fs_parentPath : list string;
  fs_parentSchemaPath : list string;
  fs_preferences : DocPreferences;
  fs_req : PayloadRequest;
  fs_schemaPathsToRender : list string;
}.

Record HandleFormStateLockingArgs : Type := {
  lk_id : option DocID;
  lk_collectionSlug : option string;
  lk_globalSlug : option string;
  lk_req : PayloadRequest;
  lk_updateLastEdited : option bool;
}.

Record AttachComponentsArgs : Type := {
  at_config : SanitizedConfig;
  at_fieldSchemaMap : FieldSchemaMap;
  at_formState : FormState;
  at_i18n : I18n;
  at_payload : Payload;
  at_permissions : option DocPermissions;
  at_schemaPathsToRender : list string;
}.

(** *** Results of the module *)

Record BuildFormStateSuccessResult : Type := {
  lockedState : option LockedState;
  state : FormState;
}.

(** [BuildFormStateResult], with the [null] the handler also returns. *)
Inductive BuildFormStateResult : Type :=
| SuccessResult (r : BuildFormStateSuccessResult)
| MessageResult (msg : string)               (* { message } *)
| FormattedErrors (e : ErrorResult)          (* formatErrors(err) *)
| NullResult.                                (* null *)

End Model.

(** ** Collaborators

    Functions of other modules that [buildFormState.ts] calls.  Each may
    throw.  [fieldSchemasToFormState] allocates field-state objects;
    [attachComponentsToFormState] is handed the form state object it is to
    mutate and yields that object's properties afterwards. *)
Class Collaborators `{Domain} : Type := {
  buildFieldSchemaMap : BuildFieldSchemaMapArgs -> completion FieldSchemaMap;
  formatErrors : Error -> ErrorResult;
  reduceFieldsToValues : FormState -> gmap ref FieldState -> bool -> Data;
  fieldSchemasToFormState :
    FieldSchemasToFormStateArgs -> gmap ref FieldState ->
    completion (FormState * gmap ref FieldState);
  handleFormStateLocking : HandleFormStateLockingArgs -> completion LockedState;
  attachComponentsToFormState :
    AttachComponentsArgs -> gmap ref FieldState ->
    completion (FormState * gmap ref FieldState);
  callAccess : AccessFn -> PayloadRequest -> completion bool;
  find : Payload -> FindArgs -> completion FindResult;
  emptyPreferences : DocPreferences;           (* { fields: {} } *)
}.

(** ** [buildFormState.ts] *)

Section Server.
Context `{Collaborators}.

(** Computations over the module's state. *)
Local Abbreviation IO := (@M World).

Definition is_development (env : option string) : bool :=
  match env with
  | Some v => String.eqb v "development"
  | None => false
  end.

(** Lines 43 and 57: the key under which an entity's map is cached. *)
Definition cache_key (args : BuildFieldSchemaMapArgs) : option string :=
  or_else (bm_collectionSlug args) (bm_globalSlug args).

(** [getFieldSchemaMap], lines 31-61. *)
Definition getFieldSchemaMap (args : BuildFieldSchemaMapArgs) : IO FieldSchemaMap :=
  let key := cache_key args in
  let! w := get in
  let nonDev := negb (is_development (NODE_ENV w)) in
  let! cachedEntityFieldMap :=
    (if nonDev then
       do! when (negb (bool_decide (is_Some (cachedFieldMap w))))
             (modify (set_cachedFieldMap (Some ∅))) in
       let! w := get in
       ret (default ∅ (cachedFieldMap w) !! key)
     else ret None) in
  match cachedEntityFieldMap with
  | Some m => ret m
  | None =>
      let! entityFieldMap := lift (buildFieldSchemaMap args) in
      do! when nonDev
            (modify (fun w =>
               set_cachedFieldMap (Some (<[key := entityFieldMap]> (default ∅ (cachedFieldMap w)))) w)) in
      ret entityFieldMap
  end.

(** Lines 196-208: the schema paths handed on for rendering.  The keys of a
    map are enumerated in the order of [map_to_list]. *)
Definition schemaPathsToRender (renderFields : bool) (fieldSchemaMap : FieldSchemaMap)
    (formState : option FormState) (h : gmap ref FieldState) : list string :=
  if renderFields then (map_to_list fieldSchemaMap).*1
  else
    match formState with
    | Some formState =>
        omap (fun '(key, r) =>
                match h !! r with                 (* field?.requiresRender *)
                | Some field =>
                    if requiresRender field
                    then Some (join "." (fs_schemaPath field))
                    else None
                | None => None
                end)
             (map_to_list formState)
    | None => []
    end.

(** Lines 217-223: a field without sub-fields that is not a blocks field. *)
Definition lacks_subfields (c : FieldOrEntityConfig) : bool :=
  match c with
  | ConfigArray _ => false                        (* 'type' in [...] is false *)
  | ConfigObject o =>
      (match field_fields o with
       | None => true                             (* !('fields' in o) *)
       | Some None => true                        (* !o.fields *)
       | Some (Some fs) => Nat.eqb (length fs) 0  (* !o.fields.length *)
       end)
      && match field_type o with
         | Some t => negb (String.eqb t "blocks")
         | None => false                          (* !('type' in o) *)
         end
  end.

(** Lines 247-251. *)
Definition fields_of (c : FieldOrEntityConfig) : option (list Field) :=
  match c with
  | ConfigArray fs => Some fs
  | ConfigObject o =>
      match field_fields o with
      | Some fs => fs
      | None => Some [o]
      end
  end.

(** The default of the [schemaPath] parameter, line 179.  It is only looked
    at after the guard of line 185, where one of the slugs is a string. *)
Definition default_schemaPath (collectionSlug globalSlug : option string) : list string :=
  if truthy collectionSlug
  then [default EmptyString collectionSlug]
  else [default EmptyString globalSlug].

(** The message of line 214. *)
Definition not_found_message (schemaPath : list string) : string :=
  "Could not find " ++ dquote ++ join "." schemaPath ++ dquote ++ " in the fieldSchemaMap".

(** The message of line 225. *)
Definition no_subfields_message (schemaPath : list string) : string :=
  "The field found in fieldSchemaMap for " ++ dquote ++ join "." schemaPath ++ dquote
  ++ " does not contain any subfields.".

(** Lines 189-194: the arguments of the call to [getFieldSchemaMap]. *)
Definition entity_args (args : BuildFormStateArgs) : BuildFieldSchemaMapArgs :=
  {| bm_collectionSlug := collectionSlug args; bm_config := config (payload (req args));
     bm_globalSlug := globalSlug args; bm_i18n := i18n (req args) |}.

(** Line 179: the [schemaPath] parameter with its default. *)
Definition requested_schemaPath (args : BuildFormStateArgs) : list string :=
  default (default_schemaPath (collectionSlug args) (globalSlug args)) (schemaPath args).

(** [buildFormState], lines 158-302. *)
Definition buildFormState (args : BuildFormStateArgs) : IO BuildFormStateSuccessResult :=
  let idFromArgs := id args in
  let collectionSlug := collectionSlug args in
  let incomingData := data args in
  let formState := formState args in
  let globalSlug := globalSlug args in
  let path := default [] (path args) in
  let renderFields := default false (renderFields args) in
  let req := req args in
  let i18n := i18n req in
  let payload := payload req in
  let config := config payload in
  if negb (truthy collectionSlug) && negb (truthy globalSlug)
  then throw (newError "Either collectionSlug or globalSlug must be provided")
  else
  let schemaPath := requested_schemaPath args in
  let! fieldSchemaMap := getFieldSchemaMap (entity_args args) in
  let! w := get in
  let schemaPathsToRender := schemaPathsToRender renderFields fieldSchemaMap formState (heap w) in
  let id := if truthy collectionSlug then idFromArgs else None in
  match fieldSchemaMap !! join "." schemaPath with
  | None => throw (newError (not_found_message schemaPath))
  | Some fieldOrEntityConfig =>
  if lacks_subfields fieldOrEntityConfig
  then throw (newError (no_subfields_message schemaPath))
  else
  let data :=
    match formState with
    | Some fs => Some (reduceFieldsToValues fs (heap w) true)
    | None => incomingData
    end in
  let isEntitySchema :=
    match schemaPath with
    | [s] => str_eq s collectionSlug || str_eq s globalSlug
    | _ => false
    end in
  let fields := fields_of fieldOrEntityConfig in
  let parentSchemaPath := if isEntitySchema then schemaPath else slice_0_m1 schemaPath in
  let parentPath := if isEntitySchema then path else slice_0_m1 path in
  let! '(formStateResult, h1) :=
    lift (fieldSchemasToFormState
            {| fs_id := id; fs_collectionSlug := collectionSlug; fs_data := data;
               fs_fields := fields; fs_operation := operation args;
               fs_parentPath := parentPath; fs_parentSchemaPath := parentSchemaPath;
               fs_preferences := default emptyPreferences (docPreferences args);
               fs_req := req; fs_schemaPathsToRender := schemaPathsToRender |}
            (heap w)) in
  do! modify (set_heap h1) in
  (* Maintain form state of auth / upload fields *)
  let formStateResult :=
    match formState with
    | Some fs =>
        if truthy collectionSlug
        then match collections payload !! default EmptyString collectionSlug ≫= upload,
                   fs !! "file" with
             | Some _, Some file => <["file" := file]> formStateResult
             | _, _ => formStateResult
             end
        else formStateResult
    | None => formStateResult
    end in
  let! lockedStateResult :=
    (if returnLockStatus args
     then let! l := lift (handleFormStateLocking
                            {| lk_id := id; lk_collectionSlug := collectionSlug;
                               lk_globalSlug := globalSlug; lk_req := req;
                               lk_updateLastEdited := updateLastEdited args |}) in
          ret (Some l)
     else ret None) in
  (* mutates form state and adds custom components to field paths *)
  let! '(formStateResult, h2) :=
    lift (attachComponentsToFormState
            {| at_config := config; at_fieldSchemaMap := fieldSchemaMap;
               at_formState := formStateResult; at_i18n := i18n; at_payload := payload;
               at_permissions := docPermissions args;
               at_schemaPathsToRender := schemaPathsToRender |}
            h1) in
  do! modify (set_heap h2) in
  ret {| lockedState := lockedStateResult; state := formStateResult |}
  end.

(** Lines 126-131: the look-up of one document of the admin user collection. *)
Definition find_users (req : PayloadRequest) : completion FindResult :=
  find (payload req)
    {| find_collection := admin_user (config (payload req)); find_depth := 0;
       find_limit := 1; find_pagination := false |}.

(** The access check of [buildFormStateHandler], lines 106-137. *)
Definition accessCheck (req : PayloadRequest) : IO unit :=
  let incomingUserSlug :=                        (* req.user?.collection *)
    match user req with
    | Some u => user_collection u
    | None => None
    end in
  let adminUserSlug := admin_user (config (payload req)) in
  if truthy incomingUserSlug then
    match collections (payload req) !! default EmptyString incomingUserSlug with
    | None => throw (typeError "Cannot read properties of undefined (reading 'config')")
    | Some c =>
        match access_admin c with
        | Some adminAccessFunction =>
            let! canAccessAdmin := lift (callAccess adminAccessFunction req) in
            if negb canAccessAdmin then throw (newError "Unauthorized") else ret tt
        | None =>
            if negb (str_eq adminUserSlug incomingUserSlug)
            then throw (newError "Unauthorized")
            else ret tt
        end
    end
  else
    let! hasUsers := lift (find_users req) in
    if negb (Nat.eqb (length (docs hasUsers)) 0)
    then throw (newError "Unauthorized")
    else ret tt.

(** Line 142: what is handed to [req.payload.logger.error]. *)
Definition error_entry (err : Error) : LogEntry :=
  {| log_err := err; log_msg := "There was an error building form state" |}.

(** The [catch] clause of [buildFormStateHandler], lines 141-155. *)
Definition handleError (err : Error) : IO BuildFormStateResult :=
  do! modify (log_error (error_entry err)) in
  if String.eqb (message err) "Could not find field schema for given path"
  then ret (MessageResult (message err))
  else if String.eqb (message err) "Unauthorized"
  then ret NullResult
  else ret (FormattedErrors (formatErrors err)).

(** A structured error result that carries the message of [err]: the
    [{ message }] object of line 145 or the result of [formatErrors] on
    [err]. *)
Definition carries_error (err : Error) (result : BuildFormStateResult) : Prop :=
  result = MessageResult (message err) \/ result = FormattedErrors (formatErrors err).

(** [buildFormStateHandler], lines 101-156, over the function it calls at
    line 139. *)
Definition buildFormStateHandler_with
    (buildFormState : BuildFormStateArgs -> IO BuildFormStateSuccessResult)
    (args : BuildFormStateArgs) : IO BuildFormStateResult :=
  try_catch
    (do! accessCheck (req args) in
     let! res := buildFormState args in
     ret (SuccessResult res))
    handleError.

Definition buildFormStateHandler : BuildFormStateArgs -> IO BuildFormStateResult :=
  buildFormStateHandler_with buildFormState.

End Server.

(** ** [getClientConfig]

    The client config has a module-level cache of its own, next to the one of
    the schema maps. *)

Section ClientConfigCache.
Context `{Domain}.
Variable ClientConfig : Type.

Record CreateClientConfigArgs : Type := {
  cc_config : SanitizedConfig;
  cc_i18n : I18n;
}.

(** [createClientConfig], of package [payload]. *)
Variable createClientConfig : CreateClientConfigArgs -> completion ClientConfig.

Record ClientWorld : Type := {
  client_NODE_ENV : option string;                 (* process.env.NODE_ENV *)
  cachedClientConfig : option ClientConfig;
}.

Definition set_cachedClientConfig (c : option ClientConfig) (w : ClientWorld) : ClientWorld :=
  {| client_NODE_ENV := client_NODE_ENV w; cachedClientConfig := c |}.

(** [getClientConfig], lines 63-79. *)
Definition getClientConfig (args : CreateClientConfigArgs) : @M ClientWorld ClientConfig :=
  let! w := get in
  match cachedClientConfig w, negb (is_development (client_NODE_ENV w)) with
  | Some cached, true => ret cached
  | _, _ =>
      let! created := lift (createClientConfig args) in
      do! modify (set_cachedClientConfig (Some created)) in
      ret created
  end.

End ClientConfigCache.

Arguments client_NODE_ENV {ClientConfig} _.
Arguments cachedClientConfig {ClientConfig} _.
Arguments set_cachedClientConfig {ClientConfig} _ _.
Arguments getClientConfig {_ ClientConfig} _ _ _.


(** ** Requests derived from a request *)

Section Requests.
Context `{Domain}.

(** The arguments [args] with [id] left out. *)
Definition without_id (args : BuildFormStateArgs) : BuildFormStateArgs :=
  {| id := None; collectionSlug := collectionSlug args; data := data args;
     docPermissions := docPermissions args; docPreferences := docPreferences args;
     formState := formState args; globalSlug := globalSlug args;
     operation := operation args; path := path args; renderFields := renderFields args;
     req := req args; returnLockStatus := returnLockStatus args;
     schemaPath := schemaPath args; updateLastEdited := updateLastEdited args |}.

End Requests.

(** ** The blocks field component *)

Module BlocksField.

(** The value of the field as the form holds it: the number of rows, or
    [null] for an alternate locale that has no value. *)
Inductive Value : Type :=
| VNull
| VUndefined
| VNumber (n : Z).

(** What a validation function returns: [true] or an error message. *)
Inductive ValidateResult : Type :=
| Valid
| Invalid (msg : string).

(** The options a validation function receives. *)
Record ValidateOptions {Rest : Type} : Type := {
  opt_maxRows : option Z;
  opt_minRows : option Z;
  opt_required : option bool;
  opt_rest : Rest;                     (* siblingData, operation, ... *)
}.
Arguments ValidateOptions Rest : clear implicits.

(** [config.localization]: [false] is [None]. *)
Record Localization : Type := {
  fallback : bool;
  defaultLocale : string;
}.

(** One element of the field's data array. *)
Record Block : Type := {
  block_id : string;
  blockType : string;
  block_values : list (string * string);
}.

(** One element of [rows], from [useField]. *)
Record Row : Type := {
  row_id : string;
  row_blockType : string;
  row_collapsed : bool;
}.

Record AddFieldRowArgs : Type := {
  afr_data : string * list Block;      (* { [name]: [...] } *)
  afr_path : string;
  afr_schemaPath : string;
}.

(** What [useForm] provides to [addRow]. *)
Record Form : Type := {
  getDataByPath : string -> list Block;
  addFieldRow : AddFieldRowArgs -> completion unit;
}.

(** Calls the component's callbacks make on their environment. *)
Inductive Call : Type :=
| CallAddFieldRow (a : AddFieldRowArgs)
| CallSetModified (b : bool)
| CallScrollToID (id : string).         (* from the [setTimeout] callback *)

Section Component.
Context {Rest : Type}.

Record Props : Type := {
  name : string;
  maxRows : option Z;
  minRowsProp : option Z;               (* field.minRows *)
  required : option bool;
  path : string;
  schemaPath : string;
  validate : option (Value -> ValidateOptions Rest -> ValidateResult);
  readOnlyFromTopLevelProps : bool;
  readOnlyFromAdmin : bool;
}.

(** Line 57: [(minRowsProp ?? required) ? 1 : 0]. *)
Definition minRows (p : Props) : Z :=
  let chosen_is_truthy :=                (* truthiness of [minRowsProp ?? required] *)
    match minRowsProp p with
    | Some n => negb (Z.eqb n 0)
    | None => default false (required p)
    end in
  if chosen_is_truthy then 1 else 0.

(** Line 76: [localization.defaultLocale || 'en']. *)
Definition defaultLocale_or_en (l : Localization) : string :=
  if String.eqb (defaultLocale l) EmptyString then "en" else defaultLocale l.

(** Lines 74-81. *)
Definition editingDefaultLocale (localization : option Localization) (locale : string) : bool :=
  match localization with
  | Some l =>
      if fallback l then
        let defaultLocale := defaultLocale_or_en l in
        String.eqb locale defaultLocale
      else true
  | None => true
  end.

(** Lines 83-94; [None] is the [undefined] of a call that falls through. *)
Definition memoizedValidate (p : Props) (localization : option Localization) (locale : string)
    (value : Value) (options : ValidateOptions Rest) : option ValidateResult :=
  let is_null := match value with VNull => true | _ => false end in
  (* alternative locales can be null *)
  if negb (editingDefaultLocale localization locale) && is_null then Some Valid
  else
    match validate p with
    | Some validate =>
        Some (validate value
                {| opt_maxRows := maxRows p; opt_minRows := Some (minRows p);
                   opt_required := required p; opt_rest := opt_rest options |})
    | None => None
    end.

(** Line 115: [{ id: uuid(), blockType }]. *)
Definition newRow (uuid blockType : string) : Block :=
  {| block_id := uuid; blockType := blockType; block_values := [] |}.

(** Lines 119-123: the arguments of the call to [addFieldRow]. *)
Definition addRow_request (p : Props) (form : Form) (uuid blockType : string)
    : AddFieldRowArgs :=
  let currentData := getDataByPath form (path p) in
  {| afr_data := (name p, (currentData ++ [newRow uuid blockType])%list);
     afr_path := path p; afr_schemaPath := schemaPath p |}.

(** Lines 112-132.  [uuid] is the identifier [uuid()] yields for this call.
    The result is the completion of the callback with the calls it made. *)
Definition addRow (p : Props) (form : Form) (uuid : string)
    (rowIndex : Z) (blockType : string) : completion unit * list Call :=
  (* TODO add the new row into the currentData array using the incoming rowIndex *)
  let request := addRow_request p form uuid blockType in
  match addFieldRow form request with
  | Normal _ =>
      (Normal tt,
       [CallAddFieldRow request; CallSetModified true;
        CallScrollToID (path p ++ "-row-" ++ pretty (rowIndex + 1)%Z)])
  | Throw e => (Throw e, [CallAddFieldRow request])
  end.

(** After the specification's [addRow(path, newRowId, insertAtIndex)], not
    after the code: the data array with [row] inserted at [index], the rows
    from that index on moved one position later. *)
Definition spec_insert_row_at (index : nat) (row : Block) (currentData : list Block)
    : list Block :=
  take index currentData ++ row :: drop index currentData.

(** Line 192: truthiness of [maxRows && rows.length >= maxRows]. *)
Definition hasMaxRows (p : Props) (rows : list Row) : bool :=
  match maxRows p with
  | Some m => negb (Z.eqb m 0) && Z.leb m (Z.of_nat (length rows))
  | None => false
  end.

(** Line 110. *)
Definition disabled (p : Props) (formProcessing formInitializing : bool) : bool :=
  readOnlyFromTopLevelProps p || readOnlyFromAdmin p || formProcessing || formInitializing.

(** Line 314: whether the drawer toggler and the blocks drawer, the controls
    that add a row at the end, are rendered. *)
Definition rendersAddControl (p : Props) (rows : list Row)
    (formProcessing formInitializing : bool) : bool :=
  negb (disabled p formProcessing formInitializing) && negb (hasMaxRows p rows).

(** Line 194. *)
Definition fieldErrorCount (errorPaths : list string) : nat := length errorPaths.






(** Line 259: the prefix of the error paths of row [i]. *)
Definition rowErrorPrefix (p : Props) (i : nat) : string :=
  path p ++ "." ++ pretty i ++ ".".

(** Lines 258-260. *)
Definition rowErrorCount (p : Props) (errorPaths : list string) (i : nat) : nat :=
  length (List.filter (fun errorPath => startsWith errorPath (rowErrorPrefix p i)) errorPaths).

(** A block config, as far as the component looks into it. *)
Record BlockConfig : Type := {
  block_slug : string;
  block_fields : list Field;
}.

(** What the component hands to [DraggableSortableItem] and [BlockRow] for a
    row, the callbacks and labels aside. *)
Record RowElement : Type := {
  item_id : string;
  item_disabled : bool;
  el_block : BlockConfig;
  el_errorCount : nat;
  el_fields : list Field;
  el_hasMaxRows : bool;
  el_isSortable : bool;
  el_path : string;
  el_readOnly : bool;
  el_row : Row;
  el_rowCount : nat;
  el_rowIndex : nat;
}.

(** Lines 253-292: the elements rendered for the rows; [None] is the [null]
    of a row whose block type has no config. *)
Definition renderRows (p : Props) (blocks : list BlockConfig) (isSortable : bool)
    (rows : list Row) (errorPaths : list string)
    (formProcessing formInitializing : bool) : list (option RowElement) :=
  imap (fun i row =>
          match List.find (fun block => String.eqb (block_slug block) (row_blockType row))
                  blocks with
          | Some blockConfig =>
              Some {| item_id := row_id row;
                      item_disabled :=
                        disabled p formProcessing formInitializing || negb isSortable;
                      el_block := blockConfig;
                      el_errorCount := rowErrorCount p errorPaths i;
                      el_fields := block_fields blockConfig;
                      el_hasMaxRows := hasMaxRows p rows;
                      el_isSortable := isSortable;
                      el_path := path p;
                      el_readOnly := disabled p formProcessing formInitializing;
                      el_row := row;
                      el_rowCount := length rows;
                      el_rowIndex := i |}
          | None => None
          end)
       rows.

End Component.

Arguments Props Rest : clear implicits.

End BlocksField.

(** ** The cloud plugin

    [payloadCloudPlugin] rewrites a config for the cloud: storage hooks and
    handlers for the upload collections, email, and the bookkeeping of the
    instance that runs the jobs. *)

Module CloudPlugin.

(** An option that may be left out, switched off with [false], or given. *)
Inductive Setting (A : Type) : Type :=
| Unset
| Off
| Given (a : A).
Arguments Unset {A}.
Arguments Off {A}.
Arguments Given {A} a.

(** The environment variables the plugin reads. *)
Record Env : Type := {
  PAYLOAD_CLOUD : option string;
  PAYLOAD_CLOUD_CACHE_KEY : option string;
  PAYLOAD_CLOUD_EMAIL_API_KEY : option string;
  PAYLOAD_CLOUD_DEFAULT_DOMAIN : option string;
}.

(** Types the plugin only passes around; the values are the objects without
    any property. *)
Class CloudDomain : Type := {
  Hook : Type;
  Handler : Type;
  EmailAdapter : Type;
  Task : Type;
  UserOnInit : Type;
  CachingOptions : Type;
  StorageOptions : Type;
  JobsOptions : Type;
  UploadRest : Type;
  HooksRest : Type;
  CollectionRest : Type;
  ConfigUploadRest : Type;
  JobsRest : Type;
  GlobalRest : Type;
  ConfigRest : Type;
  noUploadRest : UploadRest;
  noHooksRest : HooksRest;
  noConfigUploadRest : ConfigUploadRest;
}.

Section Config.
Context `{CloudDomain}.

Record UploadObject : Type := {
  disableLocalStorage : option bool;
  handlers : option (list Handler);        (* [None]: not an array *)
  upload_rest : UploadRest;
}.

(** [collection.upload]: falsy, [true], or an object. *)
Inductive Upload : Type :=
| UploadFalsy
| UploadTrue
| UploadWith (o : UploadObject).

Record Hooks : Type := {
  afterChange : option (list Hook);
  afterDelete : option (list Hook);
  beforeChange : option (list Hook);
  hooks_rest : HooksRest;
}.

Record Collection : Type := {
  upload : Upload;
  hooks : option Hooks;
  collection_rest : CollectionRest;
}.

Record ConfigUpload : Type := {
  useTempFiles : option bool;
  config_upload_rest : ConfigUploadRest;
}.

Record Jobs : Type := {
  tasks : option (list Task);
  jobs_rest : JobsRest;
}.

Record GlobalField : Type := {
  field_name : string;
  field_kind : string;
  field_required : bool;
}.

Record Global : Type := {
  slug : string;
  admin_hidden : option bool;
  global_fields : list GlobalField;
  global_rest : option GlobalRest;
}.

(** [config.onInit]: the user's function, or the one the plugin installs. *)
Inductive OnInit : Type :=
| OnInitOfUser (f : UserOnInit)
| OnInitOfCloud.

Record Config : Type := {
  collections : option (list Collection);
  config_upload : option ConfigUpload;
  email : option EmailAdapter;
  jobs : option Jobs;
  globals : option (list Global);
  onInit : option OnInit;
  config_rest : ConfigRest;
}.

Record EmailOptions : Type := {
  defaultFromAddress : option string;
  defaultFromName : option string;
  skipVerify : option bool;
}.

Record PluginOptions : Type := {
  opt_email : Setting EmailOptions;
  opt_endpoint : option string;
  opt_jobs : option JobsOptions;
  opt_storage : Setting StorageOptions;
  opt_uploadCaching : Setting CachingOptions;
}.

Record StaticHandlerArgs : Type := {
  sh_cachingOptions : Setting CachingOptions;
  sh_collection : Collection;
}.

Record CloudEmailArgs : Type := {
  ce_apiKey : string;
  ce_config : Config;
  ce_defaultDomain : string;
  ce_defaultFromAddress : option string;
  ce_defaultFromName : option string;
  ce_skipVerify : option bool;
}.

End Config.

(** The hooks, the handler and the email adapter come from other modules. *)
Class CloudCollaborators `{CloudDomain} : Type := {
  getAfterDeleteHook : Collection -> Hook;
  getBeforeChangeHook : Collection -> Hook;
  getCacheUploadsAfterChangeHook : string -> Hook;
  getCacheUploadsAfterDeleteHook : string -> Hook;
  getStaticHandler : StaticHandlerArgs -> Handler;
  payloadCloudEmail : CloudEmailArgs -> completion EmailAdapter;
}.

Section Plugin.
Context `{CloudCollaborators}.

(** [pluginOptions?.x] for the three switches and the endpoint. *)
Definition storage_of (o : option PluginOptions) : Setting StorageOptions :=
  match o with Some o => opt_storage o | None => Unset end.
Definition uploadCaching_of (o : option PluginOptions) : Setting CachingOptions :=
  match o with Some o => opt_uploadCaching o | None => Unset end.
Definition email_of (o : option PluginOptions) : Setting EmailOptions :=
  match o with Some o => opt_email o | None => Unset end.
Definition endpoint_of (o : option PluginOptions) : option string :=
  match o with Some o => opt_endpoint o | None => None end.

(** [x !== false] *)
Definition not_off {A} (s : Setting A) : bool :=
  match s with Off => false | _ => true end.

Definition in_cloud (env : Env) : bool :=
  match PAYLOAD_CLOUD env with
  | Some v => String.eqb v "true"
  | None => false
  end.

Definition cachingEnabled (pluginOptions : option PluginOptions) (env : Env) : bool :=
  not_off (uploadCaching_of pluginOptions) && truthy (PAYLOAD_CLOUD_CACHE_KEY env).

Definition apiEndpoint (pluginOptions : option PluginOptions) : string :=
  match endpoint_of pluginOptions with
  | Some endpoint =>
      if String.eqb endpoint EmptyString then "https://cloud-api.payloadcms.com"
      else endpoint
  | None => "https://cloud-api.payloadcms.com"
  end.

(** The callback of [collections.map]. *)
Definition configureCollection (pluginOptions : option PluginOptions) (env : Env)
    (collection : Collection) : Collection :=
  match upload collection with
  | UploadFalsy => collection
  | _ =>
      let existing (pick : Hooks -> option (list Hook)) : list Hook :=
        default [] (hooks collection ≫= pick) in
      let cache (hook : Hook) : list Hook :=
        if cachingEnabled pluginOptions env then [hook] else [] in
      let uploadObject :=
        match upload collection with
        | UploadWith o => o
        | _ => {| disableLocalStorage := None; handlers := None;
                  upload_rest := noUploadRest |}
        end in
      {| upload :=
           UploadWith
             {| disableLocalStorage := Some true;
                handlers :=
                  Some (default [] (handlers uploadObject)
                        ++ [getStaticHandler
                              {| sh_cachingOptions := uploadCaching_of pluginOptions;
                                 sh_collection := collection |}])%list;
                upload_rest := upload_rest uploadObject |};
         hooks :=
           Some {| afterChange :=
                     Some (existing afterChange
                           ++ cache (getCacheUploadsAfterChangeHook
                                       (apiEndpoint pluginOptions)))%list;
                   afterDelete :=
                     Some (existing afterDelete
                           ++ [getAfterDeleteHook collection]
                           ++ cache (getCacheUploadsAfterDeleteHook
                                       (apiEndpoint pluginOptions)))%list;
                   beforeChange :=
                     Some (existing beforeChange ++ [getBeforeChangeHook collection])%list;
                   hooks_rest :=
                     match hooks collection with
                     | Some h => hooks_rest h
                     | None => noHooksRest
                     end |};
         collection_rest := collection_rest collection |}
  end.

(** "Configure cloud storage". *)
Definition configureStorage (pluginOptions : option PluginOptions) (env : Env)
    (config : Config) : Config :=
  {| collections :=
       Some (configureCollection pluginOptions env <$> default [] (collections config));
     config_upload :=
       Some {| useTempFiles := Some true;
               config_upload_rest :=
                 match config_upload config with
                 | Some u => config_upload_rest u
                 | None => noConfigUploadRest
                 end |};
     email := email config; jobs := jobs config; globals := globals config;
     onInit := onInit config; config_rest := config_rest config |}.

Definition set_email (e : EmailAdapter) (config : Config) : Config :=
  {| collections := collections config; config_upload := config_upload config;
     email := Some e; jobs := jobs config; globals := globals config;
     onInit := onInit config; config_rest := config_rest config |}.

(** The global that records which instance runs the jobs. *)
Definition cloudInstanceGlobal : Global :=
  {| slug := "payload-cloud-instance"; admin_hidden := Some true;
     global_fields :=
       [{| field_name := "instance"; field_kind := "text"; field_required := true |}];
     global_rest := None |}.

(** "If the user has tasks configured, we set up cron jobs on init". *)
Definition configureJobs (config : Config) : Config :=
  {| collections := collections config; config_upload := config_upload config;
     email := email config; jobs := jobs config;
     globals := Some (default [] (globals config) ++ [cloudInstanceGlobal])%list;
     onInit := Some OnInitOfCloud; config_rest := config_rest config |}.

(** [payloadCloudPlugin(pluginOptions)(incomingConfig)]; [None] is the
    [undefined] of a call that reaches the end of the function body. *)
Definition payloadCloudPlugin (pluginOptions : option PluginOptions) (env : Env)
    (incomingConfig : Config) : completion (option Config) :=
  let config := incomingConfig in
  if negb (in_cloud env) then Normal (Some config)
  else
    (* Configure cloud storage *)
    let config :=
      if not_off (storage_of pluginOptions)
      then configureStorage pluginOptions env config
      else config in
    (* Configure cloud email *)
    let apiKey := PAYLOAD_CLOUD_EMAIL_API_KEY env in
    let defaultDomain := PAYLOAD_CLOUD_DEFAULT_DOMAIN env in
    let with_email : completion Config :=
      if not_off (email_of pluginOptions) && truthy apiKey && truthy defaultDomain
      then
        let emailOptions :=
          match email_of pluginOptions with Given o => Some o | _ => None end in
        match payloadCloudEmail
                {| ce_apiKey := default EmptyString apiKey; ce_config := config;
                   ce_defaultDomain := default EmptyString defaultDomain;
                   ce_defaultFromAddress := emailOptions ≫= defaultFromAddress;
                   ce_defaultFromName := emailOptions ≫= defaultFromName;
                   ce_skipVerify := emailOptions ≫= skipVerify |} with
        | Normal e => Normal (set_email e config)
        | Throw err => Throw err
        end
      else Normal config in
    match with_email with
    | Throw err => Throw err
    | Normal config =>
        match jobs config ≫= tasks with
        | Some _ => Normal (Some (configureJobs config))
        | None => Normal None
        end
    end.

(** An upload collection after the plugin: local storage is disabled, and
    the hooks and handlers it had come first, in their order. *)
Definition extends_collection (before after : Collection) : Prop :=
  (exists o, upload after = UploadWith o
     /\ disableLocalStorage o = Some true
     /\ default [] (match upload before with
                    | UploadWith o' => handlers o'
                    | _ => None
                    end) `prefix_of` default [] (handlers o))
  /\ exists h, hooks after = Some h
       /\ default [] (hooks before ≫= afterChange) `prefix_of` default [] (afterChange h)
       /\ default [] (hooks before ≫= afterDelete) `prefix_of` default [] (afterDelete h)
       /\ default [] (hooks before ≫= beforeChange) `prefix_of` default [] (beforeChange h).

End Plugin.

End CloudPlugin.

(** ** A concrete installation

    A small configuration with three collections, used to run the
    definitions above on concrete requests. *)

Module Demo.

#[local] Instance domain : Domain := {|
  ConfigRest := unit;
  I18n := string;                      (* the language of the request *)
  Data := unit;
  DocPermissions := unit;
  DocPreferences := unit;
  DocID := string;
  Operation := string;
  LockedState := unit;
  ErrorResult := list string;          (* the messages of [errors] *)
  UserDoc := string;
  AccessFn := bool;                    (* an access function by its verdict *)
  UploadConfig := unit;
  FieldStateRest := unit;
|}.

Definition title : Field := MkField "title" (Some "text") None.

(** The schema map of an entity: the entity labelled in the language of the
    request, and its one field. *)
Definition entity_map (slug language : string) : FieldSchemaMap :=
  {[ slug := ConfigObject (MkField language None (Some (Some [title])));
     slug ++ ".title" := ConfigObject title ]}.

Definition collaborators : @Collaborators domain := {|
  buildFieldSchemaMap a :=
    Normal (entity_map (default EmptyString (or_else (bm_collectionSlug a) (bm_globalSlug a)))
                       (bm_i18n a));
  formatErrors e := [message e];
  reduceFieldsToValues _ _ _ := tt;
  fieldSchemasToFormState a h :=
    Normal ({[ "title" := 100%positive ]},
            <[ 100%positive := {| requiresRender := false;
                                  fs_schemaPath := (fs_parentSchemaPath a ++ ["title"])%list;
                                  fs_rest := tt |} ]> h);
  handleFormStateLocking _ := Normal tt;
  attachComponentsToFormState a h :=
    Normal (at_formState a,
            (fun f => {| requiresRender := false; fs_schemaPath := fs_schemaPath f;
                         fs_rest := fs_rest f |}) <$> h);
  callAccess f _ := Normal f;
  find _ a := Normal {| docs := if String.eqb (find_collection a) "users" then ["ada"] else [] |};
  emptyPreferences := tt;
|}.

Definition the_payload (adminUserSlug : string) : @Payload domain := {|
  config := {| admin_user := adminUserSlug; config_rest := tt |};
  collections :=
    {[ "users" := {| access_admin := None; upload := None |};
       "editors" := {| access_admin := Some false; upload := None |};
       "media" := {| access_admin := None; upload := Some tt |} ]};
|}.

(** A request without a user, and one by a user of collection [slug]. *)
Definition anonymous (adminUserSlug language : string) : @PayloadRequest domain :=
  {| user := None; i18n := language; payload := the_payload adminUserSlug |}.

Definition signed_in (slug language : string) : @PayloadRequest domain :=
  {| user := Some {| user_collection := Some slug |}; i18n := language;
     payload := the_payload "users" |}.

Definition request (r : @PayloadRequest domain) (collection : string)
    (schemaPath : option (list string)) (formState : option FormState)
    (renderFields : option bool) : @BuildFormStateArgs domain := {|
  id := None; collectionSlug := Some collection; data := None; docPermissions := None;
  docPreferences := None; formState := formState; globalSlug := None; operation := None;
  path := None; renderFields := renderFields; req := r; returnLockStatus := false;
  schemaPath := schemaPath; updateLastEdited := None;
|}.

Definition file_state : @FieldState domain :=
  {| requiresRender := false; fs_schemaPath := ["media"; "file"]; fs_rest := tt |}.

Definition alt_state : @FieldState domain :=
  {| requiresRender := true; fs_schemaPath := ["media"; "alt"]; fs_rest := tt |}.

(** A production process with an empty cache and two field-state objects. *)
Definition world0 : @World domain := {|
  NODE_ENV := Some "production";
  cachedFieldMap := None;
  heap := {[ 7%positive := file_state; 8%positive := alt_state ]};
  logged := [];
|}.

Definition incoming : FormState := {[ "file" := 7%positive; "alt" := 8%positive ]}.

(** Requests for the schema map of [posts] in English and in German. *)
Definition posts_in (language : string) : @BuildFieldSchemaMapArgs domain :=
  {| bm_collectionSlug := Some "posts"; bm_config := config (the_payload "users");
     bm_globalSlug := None; bm_i18n := language |}.

(** A request without a user, while the admin user collection [users] has a
    document, for a schema path [nope] that the map of [posts] lacks. *)
Definition stranger_asks_nope : @BuildFormStateArgs domain :=
  request (anonymous "users" "en") "posts" (Some ["nope"]) None None.

(** The same question from a signed-in admin user. *)
Definition admin_asks_nope : @BuildFormStateArgs domain :=
  request (signed_in "users" "en") "posts" (Some ["nope"]) None None.

(** A user of [editors], whose admin access function says no. *)
Definition editor_asks : @BuildFormStateArgs domain :=
  request (signed_in "editors" "en") "posts" None None None.

(** A request without a user while the admin user collection is empty. *)
Definition first_user_asks : @BuildFormStateArgs domain :=
  request (anonymous "admins" "en") "posts" None None None.

(** An admin user edits a document of the upload collection [media]. *)
Definition admin_edits_media : @BuildFormStateArgs domain :=
  request (signed_in "users" "en") "media" None (Some incoming) None.

(** An admin user names neither a collection nor a global. *)
Definition admin_names_no_entity : @BuildFormStateArgs domain := {|
  id := None; collectionSlug := None; data := None; docPermissions := None;
  docPreferences := None; formState := None; globalSlug := None; operation := None;
  path := None; renderFields := None; req := signed_in "users" "en";
  returnLockStatus := false; schemaPath := Some ["posts"]; updateLastEdited := None;
|}.

(** An admin user asks for the state of the text field [title] alone. *)
Definition admin_asks_title : @BuildFormStateArgs domain :=
  request (signed_in "users" "en") "posts" (Some ["posts"; "title"]) None None.

(** A user whose collection the config does not know. *)
Definition ghost_asks : @BuildFormStateArgs domain :=
  request (signed_in "ghosts" "en") "posts" None None None.

(** An admin user edits the global [settings] and passes an id along. *)
Definition admin_edits_settings : @BuildFormStateArgs domain := {|
  id := Some "42"; collectionSlug := None; data := None; docPermissions := None;
  docPreferences := None; formState := None; globalSlug := Some "settings";
  operation := None; path := None; renderFields := None; req := signed_in "users" "en";
  returnLockStatus := false; schemaPath := None; updateLastEdited := None;
|}.

(** A development process. *)
Definition dev_world : @World domain := {|
  NODE_ENV := Some "development";
  cachedFieldMap := None;
  heap := ∅;
  logged := [];
|}.

(** A production process that has cached the map of [pages]. *)
Definition warm_world : @World domain := {|
  NODE_ENV := Some "production";
  cachedFieldMap := Some {[ Some "pages" := entity_map "pages" "en" ]};
  heap := ∅;
  logged := [];
|}.

(** The installation with a schema-map builder that fails. *)
Definition broken_builder : @Collaborators domain := {|
  buildFieldSchemaMap _ := Throw (newError "Invalid field configuration");
  formatErrors := @formatErrors domain collaborators;
  reduceFieldsToValues := @reduceFieldsToValues domain collaborators;
  fieldSchemasToFormState := @fieldSchemasToFormState domain collaborators;
  handleFormStateLocking := @handleFormStateLocking domain collaborators;
  attachComponentsToFormState := @attachComponentsToFormState domain collaborators;
  callAccess := @callAccess domain collaborators;
  find := @find domain collaborators;
  emptyPreferences := tt;
|}.

(** A client config is the language it was created for. *)
Definition createClientConfig (a : @CreateClientConfigArgs domain) : completion string :=
  Normal (cc_i18n a).

Definition client_args (language : string) : @CreateClientConfigArgs domain :=
  {| cc_config := config (the_payload "users"); cc_i18n := language |}.

Definition client_world (env : string) : ClientWorld string :=
  {| client_NODE_ENV := Some env; cachedClientConfig := None |}.

End Demo.

(** ** A concrete blocks field *)

Module BlocksDemo.
Import BlocksField.

Definition hero : Block :=
  {| block_id := "r1"; blockType := "hero"; block_values := [("heading", "Hello")] |}.
Definition quote : Block :=
  {| block_id := "r2"; blockType := "quote"; block_values := [("text", "So it goes")] |}.

Definition rows : list Row :=
  [ {| row_id := "r1"; row_blockType := "hero"; row_collapsed := false |};
    {| row_id := "r2"; row_blockType := "quote"; row_collapsed := true |} ].

(** A form that holds the two blocks under [layout] and accepts new rows. *)
Definition form : Form := {|
  getDataByPath p := if String.eqb p "layout" then [hero; quote] else [];
  addFieldRow _ := Normal tt;
|}.

(** A field [layout] with [minRows: 3] and [maxRows: 2] in turn. *)
Definition layout (minRows maxRows : option Z)
    (validate : option (Value -> ValidateOptions unit -> ValidateResult)) : Props unit := {|
  name := "layout"; maxRows := maxRows; minRowsProp := minRows; required := Some true;
  path := "layout"; schemaPath := "pages.layout"; validate := validate;
  readOnlyFromTopLevelProps := false; readOnlyFromAdmin := false;
|}.

Definition english_first : Localization := {| fallback := true; defaultLocale := "en" |}.

Definition no_options : ValidateOptions unit :=
  {| opt_maxRows := None; opt_minRows := None; opt_required := None; opt_rest := tt |}.

(** A validation function that asks for [minRows] rows. *)
Definition at_least_minRows (value : Value) (o : ValidateOptions unit) : ValidateResult :=
  match value, opt_minRows o with
  | VNumber n, Some m => if Z.ltb n m then Invalid "This field requires more rows." else Valid
  | VNumber _, None => Valid
  | _, _ => Invalid "This field is required."
  end.

End BlocksDemo.

(** ** A concrete config for the cloud plugin *)

Module CloudDemo.
Import CloudPlugin.

#[local] Instance domain : CloudDomain := {|
  Hook := string; Handler := string; EmailAdapter := string; Task := string;
  UserOnInit := string; CachingOptions := unit; StorageOptions := unit;
  JobsOptions := unit; UploadRest := unit; HooksRest := unit; CollectionRest := string;
  ConfigUploadRest := unit; JobsRest := unit; GlobalRest := unit; ConfigRest := unit;
  noUploadRest := tt; noHooksRest := tt; noConfigUploadRest := tt;
|}.

Definition collaborators : @CloudCollaborators domain := {|
  getAfterDeleteHook c := "cloud:afterDelete:" ++ collection_rest c;
  getBeforeChangeHook c := "cloud:beforeChange:" ++ collection_rest c;
  getCacheUploadsAfterChangeHook endpoint := "cloud:cacheAfterChange@" ++ endpoint;
  getCacheUploadsAfterDeleteHook endpoint := "cloud:cacheAfterDelete@" ++ endpoint;
  getStaticHandler a := "cloud:static:" ++ collection_rest (sh_collection a);
  payloadCloudEmail a := Normal ("cloud-email@" ++ ce_defaultDomain a);
|}.

(** A collection without uploads and one with uploads and hooks of its own. *)
Definition pages : @Collection domain :=
  {| upload := UploadFalsy; hooks := None; collection_rest := "pages" |}.

Definition media : @Collection domain :=
  {| upload :=
       UploadWith {| disableLocalStorage := None; handlers := Some ["resize"];
                     upload_rest := tt |};
     hooks := Some {| afterChange := None; afterDelete := Some ["audit"];
                      beforeChange := Some ["scan"]; hooks_rest := tt |};
     collection_rest := "media" |}.

Definition site (tasks : option (list string)) : @Config domain :=
  {| collections := Some [pages; media]; config_upload := None; email := Some "smtp";
     jobs := Some {| tasks := tasks; jobs_rest := tt |};
     globals := None; onInit := Some (OnInitOfUser "seed"); config_rest := tt |}.

(** In the cloud, with a cache key and without the email variables. *)
Definition cloud : Env :=
  {| PAYLOAD_CLOUD := Some "true"; PAYLOAD_CLOUD_CACHE_KEY := Some "key";
     PAYLOAD_CLOUD_EMAIL_API_KEY := None; PAYLOAD_CLOUD_DEFAULT_DOMAIN := None |}.

Definition no_storage : @PluginOptions domain :=
  {| opt_email := Unset; opt_endpoint := None; opt_jobs := None; opt_storage := Off;
     opt_uploadCaching := Unset |}.

End CloudDemo.

(** * Properties *)

(** ** The monad *)

Section MonadFacts.
Context {W : Type}.

Lemma bind_normal {A B} (m : @M W A) (k : A -> @M W B) w a w' :
  m w = (Normal a, w') -> bind m k w = k a w'.
Proof. intros Hm. unfold bind. now rewrite Hm. Qed.

Lemma bind_throw {A B} (m : @M W A) (k : A -> @M W B) w e w' :
  m w = (Throw e, w') -> bind m k w = (Throw e, w').
Proof. intros Hm. unfold bind. now rewrite Hm. Qed.

Lemma bind_inv_normal {A B} (m : @M W A) (k : A -> @M W B) w b w' :
  bind m k w = (Normal b, w') ->
  exists a w1, m w = (Normal a, w1) /\ k a w1 = (Normal b, w').
Proof.
  unfold bind. destruct (m w) as [[a|e] w1]; intros Hk.
  - now exists a, w1.
  - discriminate.
Qed.

Lemma try_catch_throw {A} (m : @M W A) h w e w' :
  m w = (Throw e, w') -> try_catch m h w = h e w'.
Proof. intros Hm. unfold try_catch. now rewrite Hm. Qed.

Lemma try_catch_normal {A} (m : @M W A) h w a w' :
  m w = (Normal a, w') -> try_catch m h w = (Normal a, w').
Proof. intros Hm. unfold try_catch. now rewrite Hm. Qed.

End MonadFacts.

(** ** The top-level handler *)

Section HandlerFacts.
Context `{Collaborators}.

(** The [catch] clause on an error whose message is ['Unauthorized']. *)
Lemma handleError_unauthorized e w :
  message e = "Unauthorized" ->
  handleError e w = (Normal NullResult, log_error (error_entry e) w).
Proof.
  intros He. unfold handleError, bind, modify, ret. now rewrite He.
Qed.

(** The [catch] clause on any error whose message is neither of the two it
    tests for. *)
Lemma handleError_other e w :
  String.eqb (message e) "Could not find field schema for given path" = false ->
  String.eqb (message e) "Unauthorized" = false ->
  handleError e w = (Normal (FormattedErrors (formatErrors e)), log_error (error_entry e) w).
Proof.
  intros H1 H2. unfold handleError, bind, modify, ret. now rewrite H1, H2.
Qed.

(** The message of line 214 is neither of the two the [catch] clause tests. *)
Lemma not_found_message_untested schemaPath :
  String.eqb (not_found_message schemaPath) "Could not find field schema for given path" = false
  /\ String.eqb (not_found_message schemaPath) "Unauthorized" = false.
Proof. split; reflexivity. Qed.

(** The three places where the access check throws ['Unauthorized']. *)
Lemma accessCheck_denied_by_function req w u slug c f :
  user req = Some u -> user_collection u = Some slug -> truthy (Some slug) = true ->
  collections (payload req) !! slug = Some c -> access_admin c = Some f ->
  callAccess f req = Normal false ->
  accessCheck req w = (Throw (newError "Unauthorized"), w).
Proof.
  intros Hu Hs Ht Hc Hf Hcall. unfold accessCheck. rewrite Hu, Hs, Ht. simpl.
  rewrite Hc, Hf. unfold bind, lift. now rewrite Hcall.
Qed.

Lemma accessCheck_wrong_collection req w u slug c :
  user req = Some u -> user_collection u = Some slug -> truthy (Some slug) = true ->
  collections (payload req) !! slug = Some c -> access_admin c = None ->
  admin_user (config (payload req)) <> slug ->
  accessCheck req w = (Throw (newError "Unauthorized"), w).
Proof.
  intros Hu Hs Ht Hc Hf Hne. unfold accessCheck. rewrite Hu, Hs, Ht. simpl.
  rewrite Hc, Hf. apply String.eqb_neq in Hne. now rewrite Hne.
Qed.

Lemma accessCheck_anonymous req w found :
  user req = None -> find_users req = Normal found ->
  accessCheck req w =
    match docs found with
    | [] => (Normal tt, w)
    | _ :: _ => (Throw (newError "Unauthorized"), w)
    end.
Proof.
  intros Hu Hf. unfold accessCheck. rewrite Hu. simpl.
  unfold bind, lift. rewrite Hf.
  now destruct (docs found).
Qed.

(** C3.  When the access check throws an error whose message is
    ['Unauthorized'], [buildFormStateHandler] completes normally, returns
    [null] (neither a [{ message }] object nor the result of [formatErrors])
    and logs the error. *)
Theorem unauthorized_yields_null args w w1 e :
  accessCheck (req args) w = (Throw e, w1) ->
  message e = "Unauthorized" ->
  buildFormStateHandler args w = (Normal NullResult, log_error (error_entry e) w1).
Proof.
  intros Hacc Hmsg. unfold buildFormStateHandler, buildFormStateHandler_with.
  rewrite (try_catch_throw _ _ w e w1).
  - now apply handleError_unauthorized.
  - now apply bind_throw.
Qed.

(** C9.  For a request without a user for which the look-up of one user
    document of the admin user collection answers: if it finds none, the
    handler goes on to call the form-state builder (its result is that of the
    [try] block entered at that call); if it finds one, the handler returns
    [null] whatever the builder is, that is, without calling it. *)
Theorem anonymous_needs_empty_user_collection
    (builder : BuildFormStateArgs -> @M World BuildFormStateSuccessResult) args w found :
  user (req args) = None ->
  find_users (req args) = Normal found ->
  match docs found with
  | [] =>
      buildFormStateHandler_with builder args w
      = try_catch (let! res := builder args in ret (SuccessResult res)) handleError w
  | _ :: _ =>
      buildFormStateHandler_with builder args w
      = (Normal NullResult, log_error (error_entry (newError "Unauthorized")) w)
  end.
Proof.
  intros Hu Hf. pose proof (accessCheck_anonymous (req args) w found Hu Hf) as Hacc.
  unfold buildFormStateHandler_with.
  destruct (docs found) as [|d ds].
  - unfold try_catch at 1. unfold bind at 1. rewrite Hacc. reflexivity.
  - rewrite (try_catch_throw _ _ w (newError "Unauthorized") w).
    + now apply handleError_unauthorized.
    + now apply bind_throw.
Qed.

(** C1 (as amended).  For a request that passes the access check and names
    a collection or a global, if the schema path it asks for is not a key of
    the entity's schema map, the handler completes normally with a structured
    error result that carries the message of line 214, and has logged that
    error: it returns neither [null] nor a form state. *)
Theorem missing_schema_path_is_reported args w w1 w2 (m : FieldSchemaMap) :
  accessCheck (req args) w = (Normal tt, w1) ->
  truthy (collectionSlug args) || truthy (globalSlug args) = true ->
  getFieldSchemaMap (entity_args args) w1 = (Normal m, w2) ->
  m !! join "." (requested_schemaPath args) = None ->
  exists result,
    buildFormStateHandler args w
    = (Normal result,
       log_error (error_entry (newError (not_found_message (requested_schemaPath args)))) w2)
    /\ carries_error (newError (not_found_message (requested_schemaPath args))) result.
Proof.
  intros Hacc Hslug Hmap Hnone.
  set (err := newError (not_found_message (requested_schemaPath args))).
  assert (Hbuild : buildFormState args w1 = (Throw err, w2)).
  { unfold buildFormState.
    apply orb_true_iff in Hslug.
    assert (Hguard : negb (truthy (collectionSlug args)) && negb (truthy (globalSlug args))
                     = false)
      by (destruct Hslug as [-> | ->]; simpl; auto using andb_false_r).
    rewrite Hguard.
    rewrite (bind_normal _ _ w1 m w2 Hmap).
    unfold bind at 1, get. now rewrite Hnone. }
  exists (FormattedErrors (formatErrors err)). split; [|now right].
  unfold buildFormStateHandler, buildFormStateHandler_with.
  rewrite (try_catch_throw _ _ w err w2).
  - apply handleError_other; apply not_found_message_untested.
  - rewrite (bind_normal _ _ w tt w1 Hacc). now apply bind_throw.
Qed.

End HandlerFacts.

(** ** [buildFormState] *)

Section BuildFacts.
Context `{Collaborators}.

(** What one entry of the incoming form state contributes to the render
    scope (the body of the loop of lines 201-207). *)
Lemma requiresRender_entry (h : gmap ref FieldState) (r : ref) p :
  match h !! r with
  | Some field => if requiresRender field then Some (join "." (fs_schemaPath field)) else None
  | None => None
  end = Some p
  <-> exists field, h !! r = Some field /\ requiresRender field = true
                    /\ p = join "." (fs_schemaPath field).
Proof.
  split.
  - destruct (h !! r) as [field|]; [|discriminate].
    destruct (requiresRender field) eqn:Hr; [|discriminate].
    intros [= <-]. now exists field.
  - intros (field & -> & -> & ->). reflexivity.
Qed.

(** Membership in the list of lines 196-208: with [renderFields], the keys
    of the schema map; without it, the joined [schemaPath] of the entries of
    the incoming form state whose [requiresRender] is set. *)
Lemma schemaPathsToRender_scope args (fieldSchemaMap : FieldSchemaMap)
    (h : gmap ref FieldState) (p : string) :
  p ∈ schemaPathsToRender (default false (renderFields args)) fieldSchemaMap (formState args) h
  <-> if default false (renderFields args)
      then is_Some (fieldSchemaMap !! p)
      else exists (incoming : FormState) key r field,
             formState args = Some incoming /\ incoming !! key = Some r
             /\ h !! r = Some field /\ requiresRender field = true
             /\ p = join "." (fs_schemaPath field).
Proof.
  unfold schemaPathsToRender. destruct (default false (renderFields args)).
  - rewrite list_elem_of_fmap. split.
    + intros ([k c] & -> & Hin). apply elem_of_map_to_list in Hin. simpl. eauto.
    + intros [c Hc]. exists (p, c). split; [reflexivity|]. now apply elem_of_map_to_list.
  - destruct (formState args) as [incoming|].
    + rewrite list_elem_of_omap. split.
      * intros ([key r] & Hin & Hsel). apply elem_of_map_to_list in Hin.
        apply requiresRender_entry in Hsel as (field & Hf & Hr & ->).
        exists incoming, key, r, field. auto.
      * intros (incoming' & key & r & field & [= <-] & Hk & Hf & Hr & ->).
        exists (key, r). split; [now apply elem_of_map_to_list|].
        apply requiresRender_entry. eauto.
    + split.
      * intros Hin. now apply elem_of_nil in Hin.
      * intros (? & ? & ? & ? & [=] & _).
Qed.

(** C2.  In every call of [buildFormState] that gets to line 255 (a
    collection or global is named, the schema map is obtained, the schema
    path is a key of it and its entry has sub-fields), the schema paths
    handed to [fieldSchemasToFormState] for rendering are, as a set: with
    [renderFields], the keys of the schema map; without it, the joined
    [schemaPath] of the entries of the incoming form state whose
    [requiresRender] is set (none when there is no incoming form state).
    The call completes as that collaborator does when it throws, and a call
    that returns has handed the same paths, with the schema map, to
    [attachComponentsToFormState], whose form state is the one returned. *)
Theorem buildFormState_render_scope (args : BuildFormStateArgs) (w w1 : World)
    (m : FieldSchemaMap) cfg :
  truthy (collectionSlug args) || truthy (globalSlug args) = true ->
  getFieldSchemaMap (entity_args args) w = (Normal m, w1) ->
  m !! join "." (requested_schemaPath args) = Some cfg ->
  lacks_subfields cfg = false ->
  exists a : FieldSchemasToFormStateArgs,
    (forall p : string,
       p ∈ fs_schemaPathsToRender a
       <-> if default false (renderFields args)
           then is_Some (m !! p)
           else exists (incoming : FormState) key r field,
                  formState args = Some incoming /\ incoming !! key = Some r
                  /\ heap w1 !! r = Some field /\ requiresRender field = true
                  /\ p = join "." (fs_schemaPath field))
    /\ match fieldSchemasToFormState a (heap w1) with
       | Throw e => buildFormState args w = (Throw e, w1)
       | Normal (formStateResult, h1) =>
           forall res w',
             buildFormState args w = (Normal res, w') ->
             exists (b : AttachComponentsArgs) h2,
               attachComponentsToFormState b h1 = Normal (state res, h2)
               /\ at_fieldSchemaMap b = m
               /\ at_schemaPathsToRender b = fs_schemaPathsToRender a
       end.
Proof.
  intros Hslug Hmap Hcfg Hlacks.
  pose proof (eq_refl (buildFormState args w)) as Hdef.
  unfold buildFormState at 2 in Hdef.
  apply orb_true_iff in Hslug.
  assert (Hguard : negb (truthy (collectionSlug args)) && negb (truthy (globalSlug args))
                   = false)
    by (destruct Hslug as [-> | ->]; simpl; auto using andb_false_r).
  rewrite Hguard in Hdef.
  rewrite (bind_normal _ _ w m w1 Hmap) in Hdef.
  unfold bind at 1, get in Hdef. rewrite Hcfg, Hlacks in Hdef.
  unfold bind at 1, lift at 1 in Hdef.
  match type of Hdef with
  | context [fieldSchemasToFormState ?a (heap w1)] => exists a
  end.
  split.
  - intros p. cbn [fs_schemaPathsToRender]. apply schemaPathsToRender_scope.
  - destruct (fieldSchemasToFormState _ (heap w1)) as [[formStateResult h1]|e].
    + intros res w' Hrun. rewrite Hrun in Hdef. symmetry in Hdef.
      apply bind_inv_normal in Hdef as ([] & w3 & _ & Hdef).
      apply bind_inv_normal in Hdef as (lk & w4 & _ & Hdef).
      apply bind_inv_normal in Hdef as ([fsr' h2] & w5 & Hatt & Hdef).
      apply bind_inv_normal in Hdef as ([] & w6 & _ & Hdef).
      injection Hdef as <- _. cbn [state].
      unfold lift in Hatt.
      match type of Hatt with
      | context [attachComponentsToFormState ?b h1] => exists b, h2
      end.
      split; [|split; reflexivity].
      destruct (attachComponentsToFormState _ h1) as [[? ?]|?]; [|discriminate].
      now injection Hatt as -> ->.
    + exact Hdef.
Qed.
(** C10.  On a collection with an upload configuration, called with an
    incoming form state that has a [file] entry, a call of [buildFormState]
    that returns yields a state whose [file] entry is the incoming one (the
    same field-state object), provided [attachComponentsToFormState], which
    is handed the state last, leaves that property of it in place. *)
Theorem upload_file_state_carried_over args w res w' slug cfg u (incoming : FormState) file :
  collectionSlug args = Some slug -> truthy (Some slug) = true ->
  collections (payload (req args)) !! slug = Some cfg -> upload cfg = Some u ->
  formState args = Some incoming -> incoming !! "file" = Some file ->
  (forall a h fs' h', attachComponentsToFormState a h = Normal (fs', h') ->
                      fs' !! "file" = at_formState a !! "file") ->
  buildFormState args w = (Normal res, w') ->
  state res !! "file" = Some file.
Proof.
  intros Hslug Ht Hcfg Hup Hfs Hfile Hattach Hrun.
  unfold buildFormState in Hrun.
  rewrite Hslug, Hfs, Ht in Hrun. simpl in Hrun.
  apply bind_inv_normal in Hrun as (m & w1 & Hmap & Hrun).
  unfold bind at 1, get in Hrun.
  destruct (m !! _) as [c|]; [|discriminate].
  destruct (lacks_subfields c); [discriminate|].
  apply bind_inv_normal in Hrun as ([fsr h1] & w2 & Hfs2 & Hrun).
  apply bind_inv_normal in Hrun as ([] & w3 & _ & Hrun).
  rewrite Hcfg in Hrun. simpl in Hrun. rewrite Hup, Hfile in Hrun.
  apply bind_inv_normal in Hrun as (lk & w4 & _ & Hrun).
  apply bind_inv_normal in Hrun as ([fsr' h2] & w5 & Hatt & Hrun).
  apply bind_inv_normal in Hrun as ([] & w6 & _ & Hrun).
  injection Hrun as <- _. simpl.
  unfold lift in Hatt.
  destruct (attachComponentsToFormState _ h1) as [[fsr'' h2']|e] eqn:Hcall; [|discriminate].
  injection Hatt as -> -> _.
  rewrite (Hattach _ _ _ _ Hcall). simpl. apply lookup_insert_eq.
Qed.

End BuildFacts.

(** ** The schema-map cache *)

Section CacheFacts.
Context `{Collaborators}.

(** X7.  In development every call builds the map anew and the state,
    the cache included, is left alone. *)
Lemma getFieldSchemaMap_development (args : BuildFieldSchemaMapArgs) (w : World) :
  is_development (NODE_ENV w) = true ->
  getFieldSchemaMap args w = (buildFieldSchemaMap args, w).
Proof.
  intros Hdev. unfold getFieldSchemaMap, bind, get, when, modify, ret, lift.
  rewrite Hdev. simpl. now destruct (buildFieldSchemaMap args).
Qed.

(** A call whose key is in the cache returns the cached map. *)
Lemma getFieldSchemaMap_hit (args : BuildFieldSchemaMapArgs) (w : World) (c : gmap (option string) FieldSchemaMap) m :
  is_development (NODE_ENV w) = false ->
  cachedFieldMap w = Some c -> c !! cache_key args = Some m ->
  getFieldSchemaMap args w = (Normal m, w).
Proof.
  intros Hdev Hc Hm. unfold getFieldSchemaMap, bind, get, when, modify, ret.
  rewrite Hdev, Hc. simpl. rewrite Hc. simpl. now rewrite Hm.
Qed.

(** A call that returns leaves its result in the cache under its key. *)
Lemma getFieldSchemaMap_fills_cache (args : BuildFieldSchemaMapArgs) (w : World) m w1 :
  is_development (NODE_ENV w) = false ->
  getFieldSchemaMap args w = (Normal m, w1) ->
  NODE_ENV w1 = NODE_ENV w
  /\ exists c : gmap (option string) FieldSchemaMap,
       cachedFieldMap w1 = Some c /\ c !! cache_key args = Some m.
Proof.
  intros Hdev. unfold getFieldSchemaMap, bind, get, when, modify, ret, lift.
  rewrite Hdev. simpl.
  destruct (cachedFieldMap w) as [c|] eqn:Hc; simpl.
  - rewrite Hc. simpl. destruct (c !! _) as [m0|] eqn:Hm0.
    + intros [= <- <-]. eauto.
    + destruct (buildFieldSchemaMap args) as [m1|e]; [|discriminate].
      intros [= <- <-]. simpl. split; [reflexivity|].
      eexists. split; [reflexivity|]. apply lookup_insert_eq.
  - rewrite lookup_empty.
    destruct (buildFieldSchemaMap args) as [m1|e]; [|discriminate].
    intros [= <- <-]. simpl. split; [reflexivity|].
    eexists. split; [reflexivity|]. apply lookup_insert_eq.
Qed.

(** C4 (as amended).  Outside development mode the cache is keyed by
    [collectionSlug || globalSlug] alone: once a call has returned a map for
    a key, a later call with that key returns this very map and leaves the
    state as it is, whatever config and locale context it is given. *)
Theorem cache_is_keyed_by_slug_only (args1 args2 : BuildFieldSchemaMapArgs) (w : World) m w1 :
  is_development (NODE_ENV w) = false ->
  cache_key args2 = cache_key args1 ->
  getFieldSchemaMap args1 w = (Normal m, w1) ->
  getFieldSchemaMap args2 w1 = (Normal m, w1).
Proof.
  intros Hdev Hkey Hfirst.
  destruct (getFieldSchemaMap_fills_cache _ _ _ _ Hdev Hfirst) as (Henv & c & Hc & Hm).
  apply (getFieldSchemaMap_hit args2 w1 c m); [now rewrite Henv|assumption|now rewrite Hkey].
Qed.
End CacheFacts.

(** ** The definitions at work on the concrete installation *)

Section DemoFacts.
Import Demo.
Local Existing Instance Demo.domain.
Local Existing Instance Demo.collaborators.

(** C1 (as stated) fails: the schema path of [stranger_asks_nope] is absent
    from the schema map of its collection, and the handler returns [null],
    not an error result. *)
Lemma stranger_asking_for_missing_path_gets_null :
  fst (getFieldSchemaMap (entity_args stranger_asks_nope) world0)
    = Normal (entity_map "posts" "en")
  /\ entity_map "posts" "en" !! join "." (requested_schemaPath stranger_asks_nope) = None
  /\ fst (buildFormStateHandler stranger_asks_nope world0) = Normal NullResult.
Proof. repeat split; vm_compute; reflexivity. Qed.

Lemma missing_schema_path_is_reported_witness :
  exists result,
    fst (buildFormStateHandler admin_asks_nope world0) = Normal result
    /\ carries_error (newError (not_found_message ["nope"])) result.
Proof.
  destruct (missing_schema_path_is_reported admin_asks_nope world0 world0
              (snd (getFieldSchemaMap (entity_args admin_asks_nope) world0))
              (entity_map "posts" "en")) as (result & Hrun & Hcarries).
  - reflexivity.
  - vm_compute; reflexivity.
  - vm_compute; reflexivity.
  - vm_compute; reflexivity.
  - exists result. split; [now rewrite Hrun | exact Hcarries].
Defined.

Lemma unauthorized_yields_null_witness :
  buildFormStateHandler editor_asks world0
  = (Normal NullResult, log_error (error_entry (newError "Unauthorized")) world0).
Proof.
  apply (unauthorized_yields_null editor_asks world0 world0 (newError "Unauthorized")).
  - vm_compute; reflexivity.
  - reflexivity.
Defined.

Lemma anonymous_needs_empty_user_collection_witness :
  buildFormStateHandler_with buildFormState stranger_asks_nope world0
  = (Normal NullResult, log_error (error_entry (newError "Unauthorized")) world0)
  /\ buildFormStateHandler_with buildFormState first_user_asks world0
     = try_catch (let! res := buildFormState first_user_asks in ret (SuccessResult res))
         handleError world0.
Proof.
  split.
  - apply (anonymous_needs_empty_user_collection buildFormState stranger_asks_nope world0
             (@Build_FindResult domain ["ada"])); reflexivity.
  - apply (anonymous_needs_empty_user_collection buildFormState first_user_asks world0
             (@Build_FindResult domain [])); reflexivity.
Defined.

Lemma buildFormState_render_scope_witness :
  exists a : FieldSchemasToFormStateArgs,
    forall p : string,
      p ∈ fs_schemaPathsToRender a
      <-> exists (incoming : FormState) key r field,
            formState admin_edits_media = Some incoming /\ incoming !! key = Some r
            /\ heap world0 !! r = Some field /\ requiresRender field = true
            /\ p = join "." (fs_schemaPath field).
Proof.
  destruct (buildFormState_render_scope admin_edits_media world0
              (snd (getFieldSchemaMap (entity_args admin_edits_media) world0))
              (entity_map "media" "en")
              (ConfigObject (MkField "en" None (Some (Some [title])))))
    as (a & Hscope & _).
  - reflexivity.
  - vm_compute; reflexivity.
  - vm_compute; reflexivity.
  - reflexivity.
  - exists a. exact Hscope.
Defined.

Lemma upload_file_state_carried_over_witness :
  exists res w,
    buildFormState admin_edits_media world0 = (Normal res, w)
    /\ state res !! "file" = incoming !! "file".
Proof.
  destruct (buildFormState admin_edits_media world0) as [[res|e] w] eqn:Hrun.
  - exists res, w. split; [reflexivity|].
    apply (upload_file_state_carried_over admin_edits_media world0 res w "media"
             (@Build_CollectionConfig domain None (Some tt)) tt incoming 7%positive);
      try reflexivity.
    + intros a h fs' h' [= <- _]. reflexivity.
    + exact Hrun.
  - vm_compute in Hrun. discriminate Hrun.
Defined.

(** C4 (as stated) fails: after a call for [posts] in English, the call for
    [posts] in German obtains the map built for English, which is not the map
    [buildFieldSchemaMap] builds for German. *)
Lemma german_request_gets_english_map :
  NODE_ENV world0 = Some "production"
  /\ fst (getFieldSchemaMap (posts_in "de")
            (snd (getFieldSchemaMap (posts_in "en") world0)))
     = buildFieldSchemaMap (posts_in "en")
  /\ buildFieldSchemaMap (posts_in "en") <> buildFieldSchemaMap (posts_in "de").
Proof.
  split; [reflexivity|]. split; [vm_compute; reflexivity|].
  intros Heq. apply (f_equal (fun c => match c with
                                       | Normal m => m !! "posts"
                                       | Throw _ => None
                                       end)) in Heq.
  vm_compute in Heq. discriminate Heq.
Qed.

Lemma cache_is_keyed_by_slug_only_witness :
  getFieldSchemaMap (posts_in "de") (snd (getFieldSchemaMap (posts_in "en") world0))
  = (Normal (entity_map "posts" "en"), snd (getFieldSchemaMap (posts_in "en") world0)).
Proof.
  apply (cache_is_keyed_by_slug_only (posts_in "en") (posts_in "de") world0).
  - reflexivity.
  - reflexivity.
  - vm_compute; reflexivity.
Defined.

End DemoFacts.

(** ** The blocks field *)

Section BlocksFieldFacts.
Import BlocksField.
Context {Rest : Type}.
Implicit Types (p : Props Rest) (options : ValidateOptions Rest).

(** The options [memoizedValidate] hands to the field's validation function. *)
Lemma memoizedValidate_calls_validate p localization locale value options f :
  validate p = Some f ->
  editingDefaultLocale localization locale = true \/ value <> VNull ->
  memoizedValidate p localization locale value options
  = Some (f value {| opt_maxRows := maxRows p; opt_minRows := Some (minRows p);
                     opt_required := required p; opt_rest := opt_rest options |}).
Proof.
  intros Hf Hcase. unfold memoizedValidate. rewrite Hf.
  destruct Hcase as [-> | Hv]; [reflexivity|].
  destruct value; [congruence| |]; now rewrite andb_false_r.
Qed.

(** [minRows] is never more than one. *)
Lemma minRows_configured p n : minRowsProp p = Some n -> n <> 0%Z -> minRows p = 1%Z.
Proof.
  intros Hn Hnz. unfold minRows. rewrite Hn.
  apply Z.eqb_neq in Hnz. now rewrite Hnz.
Qed.

(** When does the component consider the default locale to be edited. *)
Lemma editingDefaultLocale_false localization locale :
  editingDefaultLocale localization locale = false
  <-> exists l, localization = Some l /\ fallback l = true /\ locale <> defaultLocale_or_en l.
Proof.
  unfold editingDefaultLocale. split.
  - destruct localization as [l|]; [|discriminate].
    destruct (fallback l) eqn:Hfb; [|discriminate].
    intros Hne. apply String.eqb_neq in Hne. eauto.
  - intros (l & -> & -> & Hne). now apply String.eqb_neq.
Qed.

(** C8.  The locale being edited counts as not the default one exactly
    when locale fallback is configured and the locale differs from the
    default locale.  In that case a [null] value is valid whatever the
    field's [required], [minRows] and validation function are; otherwise a
    [null] value is handed to the field's validation function, whose verdict
    is the result. *)
Theorem null_is_exempt_only_off_the_default_locale p localization locale options :
  (editingDefaultLocale localization locale = false
   <-> exists l, localization = Some l /\ fallback l = true
                 /\ locale <> defaultLocale_or_en l)
  /\ (editingDefaultLocale localization locale = false ->
      memoizedValidate p localization locale VNull options = Some Valid)
  /\ (editingDefaultLocale localization locale = true ->
      forall f, validate p = Some f ->
      memoizedValidate p localization locale VNull options
      = Some (f VNull {| opt_maxRows := maxRows p; opt_minRows := Some (minRows p);
                         opt_required := required p; opt_rest := opt_rest options |})).
Proof.
  split; [apply editingDefaultLocale_false|]. split.
  - intros Hoff. unfold memoizedValidate. now rewrite Hoff.
  - intros Hon f Hf. apply memoizedValidate_calls_validate; auto.
Qed.

(** [addRow] always asks for the new row to be the last one. *)
Lemma addRow_asks_to_append p form uuid rowIndex blockType :
  head (snd (addRow p form uuid rowIndex blockType))
  = Some (CallAddFieldRow (addRow_request p form uuid blockType))
  /\ snd (afr_data (addRow_request p form uuid blockType))
     = (getDataByPath form (path p) ++ [newRow uuid blockType])%list.
Proof.
  split; [|reflexivity]. unfold addRow.
  now destruct (addFieldRow form (addRow_request p form uuid blockType)).
Qed.

(** In the array [addRow] asks for, every row keeps its index and the new
    row comes after them all. *)
Lemma addRow_keeps_rows_in_place p form uuid blockType (i : nat) :
  let asked := snd (afr_data (addRow_request p form uuid blockType)) in
  (i < length (getDataByPath form (path p)) -> asked !! i = getDataByPath form (path p) !! i)
  /\ asked !! length (getDataByPath form (path p)) = Some (newRow uuid blockType).
Proof.
  simpl. split.
  - intros Hi. now apply lookup_app_l.
  - rewrite lookup_app_r by lia. now rewrite Nat.sub_diag.
Qed.

(** The callback completes as its call to [addFieldRow] does. *)
Lemma addRow_completion p form uuid rowIndex blockType :
  fst (addRow p form uuid rowIndex blockType)
  = addFieldRow form (addRow_request p form uuid blockType).
Proof.
  unfold addRow.
  now destruct (addFieldRow form (addRow_request p form uuid blockType)) as [[]|e].
Qed.

(** C6 (as amended).  Once the row count has reached a non-zero [maxRows],
    the component does not render the control that adds a row; [addRow]
    itself has no bound check: it asks the form for a data array one row
    longer and completes as that call does. *)
Theorem maxRows_only_hides_the_add_control p form uuid rowIndex blockType
    (rows : list Row) formProcessing formInitializing :
  hasMaxRows p rows = true ->
  rendersAddControl p rows formProcessing formInitializing = false
  /\ head (snd (addRow p form uuid rowIndex blockType))
     = Some (CallAddFieldRow (addRow_request p form uuid blockType))
  /\ length (snd (afr_data (addRow_request p form uuid blockType)))
     = S (length (getDataByPath form (path p)))
  /\ fst (addRow p form uuid rowIndex blockType)
     = addFieldRow form (addRow_request p form uuid blockType).
Proof.
  intros Hmax. repeat split.
  - unfold rendersAddControl. rewrite Hmax. apply andb_false_r.
  - apply addRow_asks_to_append.
  - simpl. rewrite length_app. simpl. lia.
  - apply addRow_completion.
Qed.

End BlocksFieldFacts.

(** ** The blocks field at work *)

Section BlocksDemoFacts.
Import BlocksField BlocksDemo.

(** C5.  Asked from the first of two rows (index 0), [addRow] hands the
    form a data array with the new row last, at index 2, and then scrolls to
    row 1.  Inserting at the index given, or right after it, would yield
    another array: the index does not place the new row, as the comment at
    line 114 notes. *)
Theorem addRow_ignores_rowIndex :
  addRow (layout None None None) form "r3" 0 "hero"
  = (Normal tt,
     [CallAddFieldRow {| afr_data := ("layout", [hero; quote; newRow "r3" "hero"]);
                         afr_path := "layout"; afr_schemaPath := "pages.layout" |};
      CallSetModified true;
      CallScrollToID "layout-row-1"])
  /\ [hero; quote; newRow "r3" "hero"] <> spec_insert_row_at 0 (newRow "r3" "hero") [hero; quote]
  /\ [hero; quote; newRow "r3" "hero"] <> spec_insert_row_at 1 (newRow "r3" "hero") [hero; quote].
Proof.
  split; [reflexivity|]. split; intros Heq.
  - apply (f_equal (fun l => block_id <$> l !! 0%nat)) in Heq. discriminate Heq.
  - apply (f_equal (fun l => block_id <$> l !! 1%nat)) in Heq. discriminate Heq.
Qed.

(** C6 (as stated) fails: with two rows and [maxRows: 2], [addRow]
    completes normally and has asked the form for three rows. *)
Lemma addRow_at_maxRows_still_adds :
  hasMaxRows (layout None (Some 2%Z) None) rows = true
  /\ addRow (layout None (Some 2%Z) None) form "r3" 2 "hero"
     = (Normal tt,
        [CallAddFieldRow {| afr_data := ("layout", [hero; quote; newRow "r3" "hero"]);
                            afr_path := "layout"; afr_schemaPath := "pages.layout" |};
         CallSetModified true;
         CallScrollToID "layout-row-3"]).
Proof. split; reflexivity. Qed.

Lemma maxRows_only_hides_the_add_control_witness :
  hasMaxRows (layout None (Some 2%Z) None) rows = true
  /\ rendersAddControl (layout None (Some 2%Z) None) rows false false = false
  /\ fst (addRow (layout None (Some 2%Z) None) form "r3" 2 "hero") = Normal tt.
Proof.
  split; [reflexivity|].
  destruct (maxRows_only_hides_the_add_control
              (layout None (Some 2%Z) None) form "r3" 2%Z "hero" rows false false)
    as (Hhidden & _ & _ & Hcompletes); [reflexivity|].
  split; [exact Hhidden | exact Hcompletes].
Defined.

(** C7.  For a field configured with [minRows: 3], the validation function
    is called with [minRows: 1]; a validation function that asks for
    [minRows] rows therefore accepts a single row. *)
Theorem configured_minRows_is_not_passed_on :
  (forall f value options,
     memoizedValidate (layout (Some 3%Z) None (Some f)) None "en" value options
     = Some (f value {| opt_maxRows := None; opt_minRows := Some 1%Z;
                        opt_required := Some true; opt_rest := opt_rest options |}))
  /\ memoizedValidate (layout (Some 3%Z) None (Some at_least_minRows)) None "en"
       (VNumber 1) no_options
     = Some Valid.
Proof. split; reflexivity. Qed.

Lemma null_is_exempt_only_off_the_default_locale_witness :
  editingDefaultLocale (Some english_first) "de" = false
  /\ memoizedValidate (layout (Some 3%Z) None (Some at_least_minRows))
       (Some english_first) "de" VNull no_options
     = Some Valid
  /\ editingDefaultLocale (Some english_first) "en" = true
  /\ memoizedValidate (layout (Some 3%Z) None (Some at_least_minRows))
       (Some english_first) "en" VNull no_options
     = Some (Invalid "This field is required.").
Proof.
  split; [reflexivity|]. split; [|split; [reflexivity|]].
  - apply (null_is_exempt_only_off_the_default_locale
             (layout (Some 3%Z) None (Some at_least_minRows)) (Some english_first) "de"
             no_options).
    reflexivity.
  - apply (proj2 (proj2 (null_is_exempt_only_off_the_default_locale
                           (layout (Some 3%Z) None (Some at_least_minRows))
                           (Some english_first) "en" no_options))
             eq_refl at_least_minRows eq_refl).
Defined.

End BlocksDemoFacts.

(** * Further properties *)

(** ** The handler and [buildFormState] *)

Section ServerExtras.
Context `{Collaborators}.

(** X2.  A request that passes the access check but names neither a
    collection nor a global is rejected before the schema map is looked at:
    [buildFormState] throws and leaves the state as it is, whatever schema
    path is asked for, and the handler returns the formatted error. *)
Theorem request_without_slug_is_rejected (args : BuildFormStateArgs) (w w1 : World) :
  accessCheck (req args) w = (Normal tt, w1) ->
  truthy (collectionSlug args) = false ->
  truthy (globalSlug args) = false ->
  buildFormState args w1
    = (Throw (newError "Either collectionSlug or globalSlug must be provided"), w1)
  /\ buildFormStateHandler args w
     = (Normal (FormattedErrors
                  (formatErrors
                     (newError "Either collectionSlug or globalSlug must be provided"))),
        log_error (error_entry
                     (newError "Either collectionSlug or globalSlug must be provided")) w1).
Proof.
  intros Hacc Hc Hg.
  assert (Hrun : buildFormState args w1
                 = (Throw (newError "Either collectionSlug or globalSlug must be provided"),
                    w1))
    by (unfold buildFormState; now rewrite Hc, Hg).
  split; [exact Hrun|].
  unfold buildFormStateHandler, buildFormStateHandler_with.
  rewrite (try_catch_throw _ _ w
             (newError "Either collectionSlug or globalSlug must be provided") w1).
  - now apply handleError_other.
  - rewrite (bind_normal _ _ w tt w1 Hacc). now apply bind_throw.
Qed.

(** The message of line 225 is neither of the two the [catch] clause tests. *)
Lemma no_subfields_message_untested schemaPath :
  String.eqb (no_subfields_message schemaPath) "Could not find field schema for given path"
    = false
  /\ String.eqb (no_subfields_message schemaPath) "Unauthorized" = false.
Proof. split; reflexivity. Qed.

(** A field with a type other than ['blocks'] and no sub-field. *)
Lemma leaf_field_lacks_subfields n t fs :
  t <> "blocks" -> fs = None \/ fs = Some None \/ fs = Some (Some []) ->
  lacks_subfields (ConfigObject (MkField n (Some t) fs)) = true.
Proof.
  intros Ht Hfs. apply String.eqb_neq in Ht. simpl. rewrite Ht.
  now destruct Hfs as [-> | [-> | ->]].
Qed.

(** X3.  Asking for the form state of a schema path that holds a single
    field which is not a blocks field and has no sub-fields is an error: the
    handler returns the formatted error of line 225. *)
Theorem leaf_field_cannot_be_built (args : BuildFormStateArgs) (w w1 w2 : World)
    (m : FieldSchemaMap) n t fs :
  accessCheck (req args) w = (Normal tt, w1) ->
  truthy (collectionSlug args) || truthy (globalSlug args) = true ->
  getFieldSchemaMap (entity_args args) w1 = (Normal m, w2) ->
  m !! join "." (requested_schemaPath args) = Some (ConfigObject (MkField n (Some t) fs)) ->
  t <> "blocks" -> fs = None \/ fs = Some None \/ fs = Some (Some []) ->
  buildFormStateHandler args w
  = (Normal (FormattedErrors
               (formatErrors (newError (no_subfields_message (requested_schemaPath args))))),
     log_error (error_entry (newError (no_subfields_message (requested_schemaPath args)))) w2).
Proof.
  intros Hacc Hslug Hmap Hcfg Ht Hfs.
  set (err := newError (no_subfields_message (requested_schemaPath args))).
  assert (Hbuild : buildFormState args w1 = (Throw err, w2)).
  { unfold buildFormState.
    apply orb_true_iff in Hslug.
    assert (Hguard : negb (truthy (collectionSlug args)) && negb (truthy (globalSlug args))
                     = false)
      by (destruct Hslug as [-> | ->]; simpl; auto using andb_false_r).
    rewrite Hguard.
    rewrite (bind_normal _ _ w1 m w2 Hmap).
    unfold bind at 1, get. rewrite Hcfg.
    now rewrite (leaf_field_lacks_subfields n t fs Ht Hfs). }
  unfold buildFormStateHandler, buildFormStateHandler_with.
  rewrite (try_catch_throw _ _ w err w2).
  - apply handleError_other; apply no_subfields_message_untested.
  - rewrite (bind_normal _ _ w tt w1 Hacc). now apply bind_throw.
Qed.

(** X4.  Without a collection slug the [id] of the request plays no part:
    [buildFormState] behaves as on the request without it. *)
Theorem id_is_ignored_without_collection (args : BuildFormStateArgs) (w : World) :
  truthy (collectionSlug args) = false ->
  buildFormState args w = buildFormState (without_id args) w.
Proof.
  intros Hc. unfold buildFormState. simpl. rewrite Hc. reflexivity.
Qed.

(** X5.  When the collection of the user has an [access.admin] function,
    its verdict alone decides the access check; the admin user collection of
    the config is not compared. *)
Theorem admin_access_function_decides (req : PayloadRequest) (w : World) u slug c f :
  user req = Some u -> user_collection u = Some slug -> truthy (Some slug) = true ->
  collections (payload req) !! slug = Some c -> access_admin c = Some f ->
  accessCheck req w
  = match callAccess f req with
    | Normal true => (Normal tt, w)
    | Normal false => (Throw (newError "Unauthorized"), w)
    | Throw e => (Throw e, w)
    end.
Proof.
  intros Hu Hs Ht Hc Hf. unfold accessCheck. rewrite Hu, Hs, Ht. simpl.
  rewrite Hc, Hf. unfold bind, lift.
  now destruct (callAccess f req) as [[]|e].
Qed.

(** X6.  A user whose collection is not among the collections of the
    config does not get the [null] of an unauthorized request: reading the
    collection's config throws a [TypeError], and the handler logs it and
    returns the formatted error. *)
Theorem unknown_user_collection_is_an_error (args : BuildFormStateArgs) (w : World) u slug :
  user (req args) = Some u -> user_collection u = Some slug -> truthy (Some slug) = true ->
  collections (payload (req args)) !! slug = None ->
  exists msg,
    buildFormStateHandler args w
    = (Normal (FormattedErrors (formatErrors (typeError msg))),
       log_error (error_entry (typeError msg)) w).
Proof.
  intros Hu Hs Ht Hc.
  exists "Cannot read properties of undefined (reading 'config')".
  unfold buildFormStateHandler, buildFormStateHandler_with.
  rewrite (try_catch_throw _ _ w
             (typeError "Cannot read properties of undefined (reading 'config')") w).
  - now apply handleError_other.
  - apply bind_throw. unfold accessCheck. rewrite Hu, Hs, Ht. simpl. now rewrite Hc.
Qed.

End ServerExtras.

(** ** The caches *)

Section CacheExtras.
Context `{Collaborators}.

(** X8.  Outside development, a call whose key is not cached returns the
    map it has built, stores it under its key and leaves the maps cached
    under other keys in place. *)
Theorem cache_miss_builds_and_keeps_other_entries
    (args : BuildFieldSchemaMapArgs) (w : World) (m : FieldSchemaMap) :
  is_development (NODE_ENV w) = false ->
  default ∅ (cachedFieldMap w) !! cache_key args = None ->
  buildFieldSchemaMap args = Normal m ->
  exists w', getFieldSchemaMap args w = (Normal m, w')
    /\ cachedFieldMap w' = Some (<[cache_key args := m]> (default ∅ (cachedFieldMap w)))
    /\ forall k, k <> cache_key args ->
         default ∅ (cachedFieldMap w') !! k = default ∅ (cachedFieldMap w) !! k.
Proof.
  intros Hdev Hmiss Hbuild.
  unfold getFieldSchemaMap, bind, get, when, modify, ret, lift.
  rewrite Hdev. simpl.
  destruct (cachedFieldMap w) as [c|] eqn:Hc; simpl in *.
  - rewrite Hc. simpl. rewrite Hmiss, Hbuild. simpl. rewrite Hc. simpl.
    eexists. split; [reflexivity|]. simpl. split; [reflexivity|].
    intros k Hk. now rewrite lookup_insert_ne.
  - rewrite lookup_empty, Hbuild. simpl.
    eexists. split; [reflexivity|]. simpl. split; [reflexivity|].
    intros k Hk. now rewrite lookup_insert_ne.
Qed.

(** X9.  Outside development, when building the map fails the error is
    passed on and nothing is stored: the cache holds what it held before. *)
Theorem failed_build_is_not_cached (args : BuildFieldSchemaMapArgs) (w : World) e :
  is_development (NODE_ENV w) = false ->
  default ∅ (cachedFieldMap w) !! cache_key args = None ->
  buildFieldSchemaMap args = Throw e ->
  exists w', getFieldSchemaMap args w = (Throw e, w')
    /\ default ∅ (cachedFieldMap w') = default ∅ (cachedFieldMap w)
    /\ NODE_ENV w' = NODE_ENV w.
Proof.
  intros Hdev Hmiss Hbuild.
  unfold getFieldSchemaMap, bind, get, when, modify, ret, lift.
  rewrite Hdev. simpl.
  destruct (cachedFieldMap w) as [c|] eqn:Hc; simpl in *.
  - rewrite Hc. simpl. rewrite Hmiss, Hbuild.
    exists w. rewrite Hc. auto.
  - rewrite lookup_empty, Hbuild.
    eexists. split; [reflexivity|]. simpl. auto.
Qed.

End CacheExtras.

Section ClientConfigExtras.
Context `{Domain}.
Context {ClientConfig : Type}
        (createClientConfig : CreateClientConfigArgs -> completion ClientConfig).

(** X10.  Outside development the client config is created once: after a
    call has returned a config, any later call returns that config and
    leaves the state as it is, whatever config and locale context it is
    given. *)
Theorem client_config_is_created_once (args1 args2 : CreateClientConfigArgs)
    (w w1 : ClientWorld ClientConfig) c :
  is_development (client_NODE_ENV w) = false ->
  getClientConfig createClientConfig args1 w = (Normal c, w1) ->
  getClientConfig createClientConfig args2 w1 = (Normal c, w1).
Proof.
  intros Hdev. unfold getClientConfig, bind, get, modify, ret, lift.
  rewrite Hdev. simpl.
  destruct (cachedClientConfig w) as [c0|] eqn:Hc.
  - intros [= <- <-]. now rewrite Hc, Hdev.
  - destruct (createClientConfig args1) as [c1|e]; [|discriminate].
    intros [= <- <-]. simpl. now rewrite Hdev.
Qed.

(** X11.  In development every call creates the client config anew from its
    own arguments, whatever is cached, and stores it; a failing creation
    leaves the cache as it is. *)
Theorem client_config_in_development (args : CreateClientConfigArgs)
    (w : ClientWorld ClientConfig) :
  is_development (client_NODE_ENV w) = true ->
  getClientConfig createClientConfig args w
  = match createClientConfig args with
    | Normal c => (Normal c, set_cachedClientConfig (Some c) w)
    | Throw e => (Throw e, w)
    end.
Proof.
  intros Hdev. unfold getClientConfig, bind, get, modify, ret, lift.
  rewrite Hdev. simpl.
  destruct (cachedClientConfig w); now destruct (createClientConfig args).
Qed.

End ClientConfigExtras.

(** ** Strings *)

Section StringFacts.

Lemma append_String c (a b : string) : String c a ++ b = String c (a ++ b).
Proof. reflexivity. Qed.

Lemma append_empty_l (a : string) : EmptyString ++ a = a.
Proof. reflexivity. Qed.

Lemma append_assoc' (a b c : string) : (a ++ b) ++ c = a ++ b ++ c.
Proof.
  induction a as [|x a IH]; [reflexivity|].
  rewrite !append_String. now rewrite IH.
Qed.

Lemma startsWith_iff str searchString :
  startsWith str searchString = true <-> exists rest, str = searchString ++ rest.
Proof.
  unfold startsWith. revert str.
  induction searchString as [|a s1 IH]; intros str.
  - destruct str; simpl; split; eauto.
  - destruct str as [|b s2]; simpl.
    + split; [discriminate|]. intros [rest Hrest]. rewrite append_String in Hrest.
      discriminate Hrest.
    + destruct (ascii_dec a b) as [->|Hne].
      * rewrite IH. split; intros [rest Hrest]; exists rest.
        -- rewrite append_String. now rewrite Hrest.
        -- rewrite append_String in Hrest. now injection Hrest.
      * split; [discriminate|]. intros [rest Hrest]. rewrite append_String in Hrest.
        injection Hrest as Hab _. congruence.
Qed.

(** Two strings without [c] that are followed by [c] in one string are the
    same string. *)
Lemma free_of_delimited c (s1 s2 r1 r2 : string) :
  free_of c s1 -> free_of c s2 ->
  s1 ++ String c r1 = s2 ++ String c r2 -> s1 = s2.
Proof.
  revert s2. induction s1 as [|a s1 IH]; intros [|b s2]; simpl;
    rewrite ?append_String, ?append_empty_l.
  - reflexivity.
  - intros _ [Hb _] [= <- _]. congruence.
  - intros [Ha _] _ [= -> _]. congruence.
  - intros [_ H1] [_ H2] [= -> Htl]. f_equal. eauto.
Qed.

Lemma pretty_N_go_free_of_dot (x : N) s : free_of "." s -> free_of "." (pretty_N_go x s).
Proof.
  revert s. induction (N.lt_wf_0 x) as [x _ IH]; intros s Hs.
  assert (x = 0 \/ 0 < x)%N as [->|Hpos] by lia.
  - now rewrite pretty_N_go_0.
  - rewrite pretty_N_go_step by done. apply IH.
    + now apply N.div_lt.
    + simpl. split; [|exact Hs].
      unfold pretty_N_char. repeat case_match; discriminate.
Qed.

Lemma pretty_nat_free_of_dot (i : nat) : free_of "." (pretty i).
Proof.
  unfold pretty, pretty_nat, pretty, pretty_N.
  case_decide; [simpl; split; [discriminate|exact I]|].
  now apply pretty_N_go_free_of_dot.
Qed.



End StringFacts.

(** ** The blocks field, continued *)

Section BlocksExtras.
Import BlocksField.
Context {Rest : Type}.
Implicit Types (p : Props Rest).

(** Because of the dot that ends the prefix, an error path starts with the
    prefix of one row at most. *)
Lemma row_error_prefixes_exclude_each_other p (i j : nat) (errorPath : string) :
  i <> j ->
  startsWith errorPath (rowErrorPrefix p i) = true ->
  startsWith errorPath (rowErrorPrefix p j) = false.
Proof.
  intros Hne Hi. destruct (startsWith errorPath (rowErrorPrefix p j)) eqn:Hj; [|reflexivity].
  exfalso. apply Hne.
  apply startsWith_iff in Hi as [r1 H1]. apply startsWith_iff in Hj as [r2 H2].
  unfold rowErrorPrefix in *. rewrite H1 in H2.
  rewrite !append_assoc' in H2. apply (inj (String.append _)) in H2.
  rewrite !append_String, !append_empty_l in H2. injection H2 as H2.
  apply free_of_delimited in H2; auto using pretty_nat_free_of_dot.
  now apply (inj pretty) in H2.
Qed.

(** Over the first [n] rows, at most one counts a given error path. *)
Lemma row_indicators_sum_le_1 p (errorPath : string) (n : nat) :
  sum_list_with (fun i => if startsWith errorPath (rowErrorPrefix p i) then 1 else 0) (seq 0 n)
  <= 1
  /\ ((forall i, i < n -> startsWith errorPath (rowErrorPrefix p i) = false) ->
      sum_list_with (fun i => if startsWith errorPath (rowErrorPrefix p i) then 1 else 0)
        (seq 0 n) = 0).
Proof.
  induction n as [|n [IHle IHzero]].
  - simpl. split; [lia|reflexivity].
  - rewrite seq_S, sum_list_with_app. simpl. split.
    + destruct (startsWith errorPath (rowErrorPrefix p n)) eqn:Hn; [|lia].
      rewrite IHzero; [lia|]. intros i Hi.
      apply (row_error_prefixes_exclude_each_other p n i); [lia|exact Hn].
    + intros Hall. rewrite IHzero by (intros i Hi; apply Hall; lia).
      rewrite (Hall n) by lia. reflexivity.
Qed.

Lemma rowErrorCount_cons p errorPath errorPaths i :
  rowErrorCount p (errorPath :: errorPaths) i
  = (if startsWith errorPath (rowErrorPrefix p i) then 1 else 0)
    + rowErrorCount p errorPaths i.
Proof.
  unfold rowErrorCount. simpl.
  now destruct (startsWith errorPath (rowErrorPrefix p i)).
Qed.

Lemma sum_list_with_add (f g : nat -> nat) (l : list nat) :
  sum_list_with (fun i => f i + g i) l = sum_list_with f l + sum_list_with g l.
Proof. induction l as [|x l IH]; simpl; [reflexivity|]. rewrite IH. lia. Qed.

Lemma sum_list_with_ext (f g : nat -> nat) (l : list nat) :
  (forall i, f i = g i) -> sum_list_with f l = sum_list_with g l.
Proof. intros Hfg. induction l as [|x l IH]; simpl; [reflexivity|]. now rewrite Hfg, IH. Qed.

(** X13.  No error path is counted for two rows: the error counts of the
    first [n] rows add up to at most the error count of the field. *)
Theorem row_error_counts_add_up_to_at_most_the_field_count
    p (errorPaths : list string) (n : nat) :
  sum_list_with (rowErrorCount p errorPaths) (seq 0 n) <= fieldErrorCount errorPaths.
Proof.
  unfold fieldErrorCount.
  induction errorPaths as [|errorPath errorPaths IH].
  - rewrite (sum_list_with_ext _ (fun _ => 0 + 0)) by reflexivity.
    rewrite sum_list_with_add.
    assert (Hzero : forall l : list nat, sum_list_with (fun _ => 0) l = 0)
      by (induction l; simpl; auto).
    rewrite Hzero. simpl. lia.
  - rewrite (sum_list_with_ext _ _ _ (rowErrorCount_cons p errorPath errorPaths)).
    rewrite sum_list_with_add. simpl.
    pose proof (proj1 (row_indicators_sum_le_1 p errorPath n)). lia.
Qed.




End BlocksExtras.

(** ** The further properties on the concrete installation *)

Section DemoExtras.
Import Demo.
Local Existing Instance Demo.domain.

Lemma request_without_slug_is_rejected_witness :
  fst (@buildFormStateHandler domain collaborators admin_names_no_entity world0)
  = Normal (FormattedErrors ["Either collectionSlug or globalSlug must be provided"])
  /\ snd (@buildFormState domain collaborators admin_names_no_entity world0) = world0.
Proof.
  destruct (@request_without_slug_is_rejected domain collaborators
              admin_names_no_entity world0 world0) as [Hbuild Hhandler];
    try reflexivity.
  split; [now rewrite Hhandler | now rewrite Hbuild].
Defined.

Lemma leaf_field_cannot_be_built_witness :
  fst (@buildFormStateHandler domain collaborators admin_asks_title world0)
  = Normal (FormattedErrors
              ["The field found in fieldSchemaMap for " ++ dquote ++ "posts.title" ++ dquote
               ++ " does not contain any subfields."]).
Proof.
  rewrite (@leaf_field_cannot_be_built domain collaborators admin_asks_title world0 world0
             (snd (@getFieldSchemaMap domain collaborators (entity_args admin_asks_title)
                     world0))
             (entity_map "posts" "en") "title" "text" None).
  - reflexivity.
  - vm_compute; reflexivity.
  - vm_compute; reflexivity.
  - vm_compute; reflexivity.
  - vm_compute; reflexivity.
  - discriminate.
  - now left.
Defined.

Lemma id_is_ignored_without_collection_witness :
  id admin_edits_settings = Some "42"
  /\ @buildFormState domain collaborators admin_edits_settings world0
     = @buildFormState domain collaborators (without_id admin_edits_settings) world0.
Proof.
  split; [reflexivity|].
  apply (@id_is_ignored_without_collection domain collaborators admin_edits_settings world0).
  reflexivity.
Defined.

Lemma admin_access_function_decides_witness :
  @accessCheck domain collaborators (signed_in "editors" "en") world0
  = (Throw (newError "Unauthorized"), world0).
Proof.
  apply (@admin_access_function_decides domain collaborators (signed_in "editors" "en") world0
           {| user_collection := Some "editors" |} "editors"
           (@Build_CollectionConfig domain (Some false) None) false);
    reflexivity.
Defined.

Lemma unknown_user_collection_is_an_error_witness :
  exists msg,
    fst (@buildFormStateHandler domain collaborators ghost_asks world0)
    = Normal (FormattedErrors [msg]).
Proof.
  destruct (@unknown_user_collection_is_an_error domain collaborators ghost_asks world0
              {| user_collection := Some "ghosts" |} "ghosts") as [msg Hrun];
    try reflexivity.
  exists msg. now rewrite Hrun.
Defined.

Lemma getFieldSchemaMap_development_witness :
  @getFieldSchemaMap domain collaborators (posts_in "de") dev_world
  = (Normal (entity_map "posts" "de"), dev_world).
Proof.
  apply (@getFieldSchemaMap_development domain collaborators (posts_in "de") dev_world).
  reflexivity.
Defined.

Lemma cache_miss_builds_and_keeps_other_entries_witness :
  exists w',
    @getFieldSchemaMap domain collaborators (posts_in "en") warm_world
    = (Normal (entity_map "posts" "en"), w')
    /\ default ∅ (cachedFieldMap w') !! Some "pages" = Some (entity_map "pages" "en").
Proof.
  destruct (@cache_miss_builds_and_keeps_other_entries domain collaborators
              (posts_in "en") warm_world (entity_map "posts" "en"))
    as (w' & Hrun & _ & Hothers); try reflexivity.
  exists w'. split; [exact Hrun|].
  rewrite Hothers; [reflexivity|discriminate].
Defined.

Lemma failed_build_is_not_cached_witness :
  exists w',
    @getFieldSchemaMap domain broken_builder (posts_in "en") warm_world
    = (Throw (newError "Invalid field configuration"), w')
    /\ default ∅ (cachedFieldMap w') = default ∅ (cachedFieldMap warm_world).
Proof.
  destruct (@failed_build_is_not_cached domain broken_builder (posts_in "en") warm_world
              (newError "Invalid field configuration"))
    as (w' & Hrun & Hcache & _); try reflexivity.
  exists w'. split; assumption.
Defined.

Lemma client_config_is_created_once_witness :
  getClientConfig createClientConfig (client_args "de")
    (snd (getClientConfig createClientConfig (client_args "en") (client_world "production")))
  = (Normal "en",
     snd (getClientConfig createClientConfig (client_args "en") (client_world "production"))).
Proof.
  apply (client_config_is_created_once createClientConfig (client_args "en")
           (client_args "de") (client_world "production")); reflexivity.
Defined.

Lemma client_config_in_development_witness :
  fst (getClientConfig createClientConfig (client_args "de")
         (snd (getClientConfig createClientConfig (client_args "en")
                 (client_world "development"))))
  = Normal "de".
Proof.
  rewrite (client_config_in_development createClientConfig (client_args "de")); reflexivity.
Defined.

End DemoExtras.

Section BlocksDemoExtras.
Import BlocksField BlocksDemo.


End BlocksDemoExtras.

(** ** The cloud plugin *)

Section CloudPluginFacts.
Import CloudPlugin.
Context `{CloudCollaborators}.

(** What the steps of the plugin leave alone. *)
Lemma configureStorage_frame pluginOptions env (config : Config) :
  jobs (configureStorage pluginOptions env config) = jobs config
  /\ globals (configureStorage pluginOptions env config) = globals config
  /\ email (configureStorage pluginOptions env config) = email config.
Proof. repeat split. Qed.

(** The config the plugin has before it looks at the jobs: that of the
    storage step, with or without the email adapter. *)
Lemma plugin_inv pluginOptions env (config config' : Config) :
  payloadCloudPlugin pluginOptions env config = Normal (Some config') ->
  in_cloud env = true ->
  let stored :=
    if not_off (storage_of pluginOptions)
    then configureStorage pluginOptions env config else config in
  is_Some (jobs config ≫= tasks)
  /\ exists before, config' = configureJobs before
       /\ (before = stored \/ exists e, before = set_email e stored).
Proof.
  intros Hrun Hcloud. unfold payloadCloudPlugin in Hrun. rewrite Hcloud in Hrun.
  simpl in Hrun.
  set (stored := if not_off (storage_of pluginOptions)
                 then configureStorage pluginOptions env config else config) in *.
  assert (Hjobs : jobs stored = jobs config) by (subst stored; destruct (not_off (storage_of pluginOptions)); reflexivity).
  cbv zeta.
  destruct (not_off (email_of pluginOptions) && truthy (PAYLOAD_CLOUD_EMAIL_API_KEY env)
            && truthy (PAYLOAD_CLOUD_DEFAULT_DOMAIN env)).
  - destruct (payloadCloudEmail _) as [e|err]; [|discriminate].
    change (jobs (set_email e stored)) with (jobs stored) in Hrun. rewrite Hjobs in Hrun.
    destruct (jobs config ≫= tasks) as [ts|] eqn:Ht; [|discriminate].
    injection Hrun as <-. split; [eauto|]. exists (set_email e stored). eauto.
  - rewrite Hjobs in Hrun.
    destruct (jobs config ≫= tasks) as [ts|] eqn:Ht; [|discriminate].
    injection Hrun as <-. split; [eauto|]. exists stored. eauto.
Qed.

(** X15.  In the cloud, for a config without job tasks the plugin never
    yields a config: the call reaches the end of the function body and the
    result is [undefined], unless the email adapter has thrown. *)
Theorem plugin_yields_a_config_only_with_tasks pluginOptions env (config : Config) :
  in_cloud env = true ->
  jobs config ≫= tasks = None ->
  match payloadCloudPlugin pluginOptions env config with
  | Normal result => result = None
  | Throw _ => True
  end.
Proof.
  intros Hcloud Htasks.
  destruct (payloadCloudPlugin pluginOptions env config) as [[config'|]|err] eqn:Hrun;
    [|reflexivity|exact I].
  destruct (plugin_inv _ _ _ _ Hrun Hcloud) as [[ts Hts] _]. congruence.
Qed.

(** What the callback of [collections.map] does to one collection. *)
Lemma configureCollection_spec pluginOptions env (collection : Collection) :
  match upload collection with
  | UploadFalsy => configureCollection pluginOptions env collection = collection
  | _ => extends_collection collection (configureCollection pluginOptions env collection)
  end.
Proof.
  unfold configureCollection, extends_collection.
  destruct (upload collection) as [| |o] eqn:Hup; [reflexivity| |].
  - split.
    + eexists. split; [reflexivity|]. simpl. split; [reflexivity|]. apply prefix_nil.
    + eexists. split; [reflexivity|]. simpl. repeat split; apply prefix_app_r; reflexivity.
  - split.
    + eexists. split; [reflexivity|]. simpl. split; [reflexivity|]. now apply prefix_app_r.
    + eexists. split; [reflexivity|]. simpl. repeat split; apply prefix_app_r; reflexivity.
Qed.

(** X16.  In the cloud, with storage not switched off, the config the
    plugin yields has as many collections as before, in the same order; a
    collection without uploads is as it was, and an upload collection has
    local storage disabled and keeps the handlers and hooks it had, in their
    order, before the ones added. *)
Theorem plugin_only_adds_to_the_collections pluginOptions env (config config' : Config) :
  payloadCloudPlugin pluginOptions env config = Normal (Some config') ->
  in_cloud env = true ->
  not_off (storage_of pluginOptions) = true ->
  exists collections',
    collections config' = Some collections'
    /\ length collections' = length (default [] (collections config))
    /\ forall i collection, default [] (collections config) !! i = Some collection ->
         exists collection', collections' !! i = Some collection'
           /\ match upload collection with
              | UploadFalsy => collection' = collection
              | _ => extends_collection collection collection'
              end.
Proof.
  intros Hrun Hcloud Hstorage.
  destruct (plugin_inv _ _ _ _ Hrun Hcloud) as [_ (before & -> & Hbefore)].
  rewrite Hstorage in Hbefore.
  exists (configureCollection pluginOptions env <$> default [] (collections config)).
  split; [destruct Hbefore as [-> | [e ->]]; reflexivity|].
  split; [apply length_fmap|].
  intros i collection Hi.
  exists (configureCollection pluginOptions env collection).
  split; [now rewrite list_lookup_fmap, Hi|].
  apply configureCollection_spec.
Qed.

(** X17.  In the cloud, with [storage: false], the config the plugin yields
    has the collections and the upload settings of the incoming config. *)
Theorem plugin_without_storage_keeps_collections pluginOptions env (config config' : Config) :
  payloadCloudPlugin pluginOptions env config = Normal (Some config') ->
  in_cloud env = true ->
  not_off (storage_of pluginOptions) = false ->
  collections config' = collections config
  /\ config_upload config' = config_upload config.
Proof.
  intros Hrun Hcloud Hstorage.
  destruct (plugin_inv _ _ _ _ Hrun Hcloud) as [_ (before & -> & Hbefore)].
  rewrite Hstorage in Hbefore.
  destruct Hbefore as [-> | [e ->]]; split; reflexivity.
Qed.

(** X18.  In the cloud, the config the plugin yields has the globals of the
    incoming config followed by the [payload-cloud-instance] global, the
    plugin's [onInit] in place of the user's, and the jobs as they were. *)
Theorem plugin_appends_the_instance_global pluginOptions env (config config' : Config) :
  payloadCloudPlugin pluginOptions env config = Normal (Some config') ->
  in_cloud env = true ->
  globals config' = Some (default [] (globals config) ++ [cloudInstanceGlobal])%list
  /\ onInit config' = Some OnInitOfCloud
  /\ jobs config' = jobs config.
Proof.
  intros Hrun Hcloud.
  destruct (plugin_inv _ _ _ _ Hrun Hcloud) as [_ (before & -> & Hbefore)].
  destruct (not_off (storage_of pluginOptions));
    destruct Hbefore as [-> | [e ->]]; repeat split.
Qed.

(** X19.  In the cloud, when email is switched off or one of the two email
    variables of the environment is missing, the config the plugin yields has
    the email adapter of the incoming config. *)
Theorem plugin_sets_email_only_when_configured pluginOptions env (config config' : Config) :
  payloadCloudPlugin pluginOptions env config = Normal (Some config') ->
  in_cloud env = true ->
  not_off (email_of pluginOptions) = false
  \/ truthy (PAYLOAD_CLOUD_EMAIL_API_KEY env) = false
  \/ truthy (PAYLOAD_CLOUD_DEFAULT_DOMAIN env) = false ->
  email config' = email config.
Proof.
  intros Hrun Hcloud Hoff. unfold payloadCloudPlugin in Hrun. rewrite Hcloud in Hrun.
  simpl in Hrun.
  assert (Hcond : not_off (email_of pluginOptions)
                  && truthy (PAYLOAD_CLOUD_EMAIL_API_KEY env)
                  && truthy (PAYLOAD_CLOUD_DEFAULT_DOMAIN env) = false).
  { destruct Hoff as [-> | [-> | ->]]; auto using andb_false_r.
    now rewrite andb_false_r. }
  rewrite Hcond in Hrun.
  destruct (not_off (storage_of pluginOptions)); simpl in Hrun;
    destruct (jobs config ≫= tasks); try discriminate;
    injection Hrun as <-; reflexivity.
Qed.

End CloudPluginFacts.

Section CloudDemoFacts.
Import CloudPlugin CloudDemo.
Local Existing Instance CloudDemo.domain.
Local Existing Instance CloudDemo.collaborators.

Lemma plugin_yields_a_config_only_with_tasks_witness :
  payloadCloudPlugin None cloud (site None) = Normal None.
Proof.
  pose proof (plugin_yields_a_config_only_with_tasks None cloud (site None)
                eq_refl eq_refl) as Hnone.
  destruct (payloadCloudPlugin None cloud (site None)) as [result|err] eqn:Hrun.
  - now rewrite Hnone.
  - vm_compute in Hrun. discriminate Hrun.
Defined.

Lemma plugin_only_adds_to_the_collections_witness :
  exists config' collections',
    payloadCloudPlugin None cloud (site (Some ["cleanup"])) = Normal (Some config')
    /\ collections config' = Some collections'
    /\ collections' !! 0%nat = Some pages
    /\ exists media', collections' !! 1%nat = Some media' /\ extends_collection media media'.
Proof.
  destruct (payloadCloudPlugin None cloud (site (Some ["cleanup"])))
    as [[config'|]|err] eqn:Hrun; [|vm_compute in Hrun; discriminate Hrun..].
  destruct (plugin_only_adds_to_the_collections None cloud (site (Some ["cleanup"])) config'
              Hrun eq_refl eq_refl) as (collections' & Hcs & _ & Heach).
  exists config', collections'. split; [reflexivity|]. split; [exact Hcs|]. split.
  - destruct (Heach 0%nat pages eq_refl) as (c' & Hc' & Hsame). simpl in Hsame.
    now rewrite Hc', Hsame.
  - destruct (Heach 1%nat media eq_refl) as (c' & Hc' & Hext). exists c'. auto.
Defined.

Lemma plugin_without_storage_keeps_collections_witness :
  exists config',
    payloadCloudPlugin (Some no_storage) cloud (site (Some ["cleanup"])) = Normal (Some config')
    /\ collections config' = Some [pages; media]
    /\ config_upload config' = None.
Proof.
  destruct (payloadCloudPlugin (Some no_storage) cloud (site (Some ["cleanup"])))
    as [[config'|]|err] eqn:Hrun; [|vm_compute in Hrun; discriminate Hrun..].
  exists config'. split; [reflexivity|].
  apply (plugin_without_storage_keeps_collections (Some no_storage) cloud
           (site (Some ["cleanup"])) config' Hrun); reflexivity.
Defined.

Lemma plugin_appends_the_instance_global_witness :
  exists config',
    payloadCloudPlugin None cloud (site (Some ["cleanup"])) = Normal (Some config')
    /\ globals config' = Some [cloudInstanceGlobal].
Proof.
  destruct (payloadCloudPlugin None cloud (site (Some ["cleanup"])))
    as [[config'|]|err] eqn:Hrun; [|vm_compute in Hrun; discriminate Hrun..].
  exists config'. split; [reflexivity|].
  apply (plugin_appends_the_instance_global None cloud (site (Some ["cleanup"])) config'
           Hrun eq_refl).
Defined.

Lemma plugin_sets_email_only_when_configured_witness :
  exists config',
    payloadCloudPlugin None cloud (site (Some ["cleanup"])) = Normal (Some config')
    /\ email config' = Some "smtp".
Proof.
  destruct (payloadCloudPlugin None cloud (site (Some ["cleanup"])))
    as [[config'|]|err] eqn:Hrun; [|vm_compute in Hrun; discriminate Hrun..].
  exists config'. split; [reflexivity|].
  apply (plugin_sets_email_only_when_configured None cloud (site (Some ["cleanup"])) config'
           Hrun eq_refl).
  right. now left.
Defined.

End CloudDemoFacts.

(** ** The rows the blocks field renders *)

Section BlocksRender.
Import BlocksField.
Context {Rest : Type}.
Implicit Types (p : Props Rest).

(** X20.  One element is produced per row, [null] included.  The element of
    a row carries that row, its index in [rows], the number of rows, the
    error count of that index, and a block config of [blocks] whose slug is
    the row's block type. *)
Theorem rendered_rows_keep_their_index_and_block
    p (blocks : list BlockConfig) isSortable (rows : list Row) (errorPaths : list string)
    formProcessing formInitializing :
  length (renderRows p blocks isSortable rows errorPaths formProcessing formInitializing)
  = length rows
  /\ forall i element,
       renderRows p blocks isSortable rows errorPaths formProcessing formInitializing !! i
       = Some (Some element) ->
       rows !! i = Some (el_row element)
       /\ el_rowIndex element = i
       /\ el_rowCount element = length rows
       /\ In (el_block element) blocks
       /\ block_slug (el_block element) = row_blockType (el_row element)
       /\ el_errorCount element = rowErrorCount p errorPaths i.
Proof.
  unfold renderRows. split; [apply length_imap|].
  intros i element. rewrite list_lookup_imap.
  destruct (rows !! i) as [row|]; [|discriminate]. simpl.
  destruct (List.find _ blocks) as [blockConfig|] eqn:Hfind; [|discriminate].
  intros [= <-]. simpl. apply find_some in Hfind as [Hin Hslug].
  apply String.eqb_eq in Hslug. auto 10.
Qed.

End BlocksRender.

(** ** The lock status *)

Section LockFacts.
Context `{Collaborators}.

(** X21.  A result of [buildFormState] carries a lock state exactly when the
    request asked for it with [returnLockStatus], and then it is what
    [handleFormStateLocking] answered for the request's document. *)
Theorem lock_status_only_on_request (args : BuildFormStateArgs) (w w' : World) res :
  buildFormState args w = (Normal res, w') ->
  match lockedState res with
  | Some l =>
      returnLockStatus args = true
      /\ handleFormStateLocking
           {| lk_id := if truthy (collectionSlug args) then id args else None;
              lk_collectionSlug := collectionSlug args; lk_globalSlug := globalSlug args;
              lk_req := req args; lk_updateLastEdited := updateLastEdited args |}
         = Normal l
  | None => returnLockStatus args = false
  end.
Proof.
  intros Hrun. unfold buildFormState in Hrun.
  destruct (negb (truthy (collectionSlug args)) && negb (truthy (globalSlug args)));
    [discriminate|].
  apply bind_inv_normal in Hrun as (m & w1 & Hmap & Hrun).
  unfold bind at 1, get in Hrun.
  destruct (m !! _) as [c|]; [|discriminate].
  destruct (lacks_subfields c); [discriminate|].
  apply bind_inv_normal in Hrun as ([fsr h1] & w2 & Hfs2 & Hrun).
  apply bind_inv_normal in Hrun as ([] & w3 & _ & Hrun).
  apply bind_inv_normal in Hrun as (lk & w4 & Hlock & Hrun).
  apply bind_inv_normal in Hrun as ([fsr' h2] & w5 & Hatt & Hrun).
  apply bind_inv_normal in Hrun as ([] & w6 & _ & Hrun).
  injection Hrun as <- _. simpl.
  destruct (returnLockStatus args).
  - apply bind_inv_normal in Hlock as (l & w7 & Hcall & Hret).
    injection Hret as <- _. split; [reflexivity|].
    unfold lift in Hcall. now injection Hcall.
  - injection Hlock as <- _. reflexivity.
Qed.

End LockFacts.

Section LockDemoFacts.
Import Demo.
Local Existing Instance Demo.domain.

Lemma lock_status_only_on_request_witness :
  exists res w,
    @buildFormState domain collaborators admin_edits_media world0 = (Normal res, w)
    /\ lockedState res = None.
Proof.
  destruct (@buildFormState domain collaborators admin_edits_media world0)
    as [[res|e] w] eqn:Hrun; [|vm_compute in Hrun; discriminate Hrun].
  exists res, w. split; [reflexivity|].
  pose proof (@lock_status_only_on_request domain collaborators admin_edits_media world0 w
                res Hrun) as Hlock.
  destruct (lockedState res) as [l|]; [|reflexivity].
  destruct Hlock as [Hasked _]. discriminate Hasked.
Defined.

End LockDemoFacts.
